(** * Analysis gateway of the AI medical analyzer ([backend.py])

    A shallow embedding of the Flask backend: the start-up code that
    creates the process-wide Gemini client, the helper
    [analyze_with_gemini] and the route handler [analyze_report].

    The program talks to three libraries whose code is not part of the
    repository: Pillow ([Image.open]), the Gemini SDK ([genai.configure],
    [genai.GenerativeModel], [client.generate_content], [response.text])
    and the [json] module ([json.loads]).  They are the fields of the
    record [Libraries]; every statement is proved for all libraries, and
    the examples run the model on concrete stubs. *)

From Stdlib Require Import List String Ascii NArith ZArith Bool Floats Lia.
Import ListNotations.

(** ** Python strings, bytes and values *)

(** A Python [str] is a sequence of Unicode code points. *)
Definition char := N.
Definition str := list char.

(** The code points of a source literal (all literals of [backend.py]
    are ASCII). *)
Definition lit (s : string) : str := map N_of_ascii (list_ascii_of_string s).

Fixpoint str_eqb (a b : str) : bool :=
  match a, b with
  | [], [] => true
  | x :: a', y :: b' => N.eqb x y && str_eqb a' b'
  | _, _ => false
  end.

(** Truth value of a [str]: the empty string is false. *)
Definition str_truthy (s : str) : bool :=
  match s with [] => false | _ :: _ => true end.

(** Slice [s[:n]]. *)
Definition slice_to (n : nat) (s : str) : str := firstn n s.

Definition bytes := list Byte.byte.

(** Python values as far as the gateway handles them: what [json.loads]
    produces, the dict literals of the gateway, and [None]. *)
#[warnings="-register-all"]
Inductive value : Type :=
| VNone
| VBool (b : bool)
| VInt (z : Z)
| VFloat (f : float)
| VStr (s : str)
| VList (l : list value)
| VDict (d : list (str * value)).

(** [d.get(k)] on a list of items in insertion order. *)
Fixpoint dict_get {A : Type} (k : str) (d : list (str * A)) : option A :=
  match d with
  | [] => None
  | (k', v) :: d' => if str_eqb k k' then Some v else dict_get k d'
  end.

(** ** Exceptions *)

(** The part of the exception hierarchy the program mentions or meets.
    [KeyboardInterrupt], [SystemExit] and [GeneratorExit] derive from
    [BaseException] directly; every other class here derives from
    [Exception] ([UnidentifiedImageError] is an [OSError],
    [JSONDecodeError] a [ValueError], the SDK errors subclasses of
    [Exception]); [OtherException] stands for any further class that
    derives from [Exception]. *)
Inductive exn_class : Type :=
| BaseException
| KeyboardInterrupt
| SystemExit
| GeneratorExit
| Exception
| ValueError
| JSONDecodeError
| OSError
| RecursionError
| OtherException (name : str).

Definition derives_from_Exception (c : exn_class) : bool :=
  match c with
  | BaseException | KeyboardInterrupt | SystemExit | GeneratorExit => false
  | Exception | ValueError | JSONDecodeError | OSError | RecursionError
  | OtherException _ => true
  end.

Definition issubclass (c d : exn_class) : bool :=
  match d with
  | BaseException => true
  | KeyboardInterrupt =>
      match c with KeyboardInterrupt => true | _ => false end
  | SystemExit => match c with SystemExit => true | _ => false end
  | GeneratorExit => match c with GeneratorExit => true | _ => false end
  | Exception => derives_from_Exception c
  | ValueError =>
      match c with ValueError | JSONDecodeError => true | _ => false end
  | JSONDecodeError =>
      match c with JSONDecodeError => true | _ => false end
  | OSError => match c with OSError => true | _ => false end
  | RecursionError => match c with RecursionError => true | _ => false end
  | OtherException n =>
      match c with OtherException m => str_eqb m n | _ => false end
  end.

(** An exception object: its class and [str(e)]. *)
Record exn : Type := mkExn { exn_cls : exn_class; exn_str : str }.

Definition isinstance (e : exn) (c : exn_class) : bool :=
  issubclass (exn_cls e) c.

(** ** The requested output schema ([types.Schema]) *)

Inductive schema_type : Type := STRING | OBJECT.

#[warnings="-register-all"]
Inductive Schema : Type :=
  mkSchema (type : schema_type)
           (description : option str)
           (enum : option (list str))
           (properties : list (str * Schema))
           (required : list str).

Definition schema_enum (s : Schema) : option (list str) :=
  match s with mkSchema _ _ e _ _ => e end.

Definition schema_properties (s : Schema) : list (str * Schema) :=
  match s with mkSchema _ _ _ p _ => p end.

Definition schema_required (s : Schema) : list str :=
  match s with mkSchema _ _ _ _ r => r end.

Definition schema_kind (s : Schema) : schema_type :=
  match s with mkSchema t _ _ _ _ => t end.

(** The enumeration asked of the model for [severity] (line 86). *)
Definition severity_enum : list str :=
  [lit "Low"; lit "Moderate"; lit "Severe"; lit "Informational"].

(** [response_schema] of lines 82-90. *)
Definition response_schema : Schema :=
  mkSchema OBJECT None None
    [ (lit "summary",
       mkSchema STRING
         (Some (lit "A simplified, layman's summary of the findings."))
         None [] []);
      (lit "severity",
       mkSchema STRING
         (Some (lit "Assessment of the finding's urgency or seriousness."))
         (Some severity_enum) [] []);
      (lit "details",
       mkSchema STRING
         (Some (lit "Detailed findings, e.g., abnormal values, decoded prescription, or specific diagnoses."))
         None [] []) ]
    [lit "summary"; lit "severity"; lit "details"].

(** What a [generation_config] entry may hold: the SDK accepts numbers
    (temperature), strings (response_mime_type) and a schema
    (response_schema). *)
Inductive config_value : Type :=
| CfgFloat (f : float)
| CfgStr (s : str)
| CfgSchema (s : Schema).

Definition generation_config := list (str * config_value).

(** The literal [0.2] of line 100, a binary64 float. *)
#[warnings="-inexact-float"]
Definition temperature : float := 0.2%float.

(** ** Outcomes, the libraries, events *)

(** A Python call either returns a value or raises. *)
Inductive outcome (A : Type) : Type :=
| Returns (a : A)
| Raises (e : exn).
Arguments Returns {A} a.
Arguments Raises {A} e.

(** The object [generate_content] returns.  [response.text] is a
    property: it gives the text or raises (the SDK raises [ValueError]
    when the candidate holds no text part). *)
Record Response : Type := mkResponse { response_text : outcome str }.

(** An item of the [contents] list of the inference call. *)
Inductive part (Image : Type) : Type :=
| PartText (s : str)
| PartImage (img : Image).
Arguments PartText {Image} s.
Arguments PartImage {Image} img.

(** The library functions the program calls. *)
Record Libraries : Type := mkLibraries {
  Image : Type;
  GenerativeModel : Type;
  genai_configure : str -> outcome unit;
  genai_GenerativeModel : str -> outcome GenerativeModel;
  Image_open : bytes -> outcome Image;
  generate_content :
    GenerativeModel -> list (part Image) -> generation_config ->
    outcome Response;
  json_loads : str -> outcome value
}.

Inductive level : Type := INFO | WARNING | ERROR.

(** What an execution does besides computing its result: log lines,
    assignments to the module-level name [client], and calls that leave
    the process. *)
Inductive event (L : Libraries) : Type :=
| Log (lv : level) (msg : str)
| StoreClient (v : option (GenerativeModel L))
| Configure (api_key : str)
| NewModel (name : str)
| ImageOpen (fp : bytes)
| GenerateContent (m : GenerativeModel L)
                  (contents : list (part (Image L)))
                  (cfg : generation_config).
Arguments Log {L} lv msg.
Arguments StoreClient {L} v.
Arguments Configure {L} api_key.
Arguments NewModel {L} name.
Arguments ImageOpen {L} fp.
Arguments GenerateContent {L} m contents cfg.

Definition is_store {L} (ev : event L) : bool :=
  match ev with StoreClient _ => true | _ => false end.

Definition is_image_open {L} (ev : event L) : bool :=
  match ev with ImageOpen _ => true | _ => false end.

Definition is_inference_call {L} (ev : event L) : bool :=
  match ev with GenerateContent _ _ _ => true | _ => false end.

(** The module-level state of the process: the name [client], which is
    [None] or the model object. *)
Record globals (L : Libraries) : Type :=
  mkGlobals { client : option (GenerativeModel L) }.
Arguments mkGlobals {L} client.
Arguments client {L} g.

(** ** The execution monad: globals threaded, events written, exceptions *)

Record run (L : Libraries) (A : Type) : Type := mkRun {
  result : outcome A;
  globals_after : globals L;
  events : list (event L)
}.
Arguments mkRun {L A} result globals_after events.
Arguments result {L A} r.
Arguments globals_after {L A} r.
Arguments events {L A} r.

Definition M (L : Libraries) (A : Type) : Type := globals L -> run L A.

Definition ret {L A} (a : A) : M L A := fun g => mkRun (Returns a) g [].

Definition raise {L A} (e : exn) : M L A := fun g => mkRun (Raises e) g [].

Definition bind {L A B} (m : M L A) (k : A -> M L B) : M L B :=
  fun g =>
    let r := m g in
    match result r with
    | Returns a =>
        let r' := k a (globals_after r) in
        mkRun (result r') (globals_after r') (events r ++ events r')
    | Raises e => mkRun (Raises e) (globals_after r) (events r)
    end.

(** [try: body except cls as e: handler e]. *)
Definition try_except {L A} (body : M L A) (cls : exn_class)
           (handler : exn -> M L A) : M L A :=
  fun g =>
    let r := body g in
    match result r with
    | Returns a => r
    | Raises e =>
        if isinstance e cls then
          let r' := handler e (globals_after r) in
          mkRun (result r') (globals_after r') (events r ++ events r')
        else r
    end.

Definition emit {L} (ev : event L) : M L unit :=
  fun g => mkRun (Returns tt) g [ev].

(** A library call: the event, then the library's outcome. *)
Definition call {L A} (ev : event L) (o : outcome A) : M L A :=
  fun g => mkRun o g [ev].

(** An outcome without an event (a property read, [json.loads]). *)
Definition lift {L A} (o : outcome A) : M L A := fun g => mkRun o g [].

Definition load_client {L} : M L (option (GenerativeModel L)) :=
  fun g => mkRun (Returns (client g)) g [].

Definition store_client {L} (v : option (GenerativeModel L)) : M L unit :=
  fun _ => mkRun (Returns tt) (mkGlobals v) [StoreClient v].

Declare Scope py_scope.
Delimit Scope py_scope with py.
Notation "x <- m ;; k" := (bind m (fun x => k))
  (at level 61, m at next level, right associativity) : py_scope.
Notation "m ;; k" := (bind m (fun _ => k))
  (at level 61, right associativity) : py_scope.
Open Scope py_scope.

Definition logger_info {L} (msg : str) : M L unit := emit (Log INFO msg).
Definition logger_warning {L} (msg : str) : M L unit := emit (Log WARNING msg).
Definition logger_error {L} (msg : str) : M L unit := emit (Log ERROR msg).

(** ** Start-up (lines 35-47) *)

(** Truth value of [os.getenv(...)]: [None] and the empty string are
    false. *)
Definition env_truthy (v : option str) : bool :=
  match v with None => false | Some s => str_truthy s end.

Definition model_name : str := lit "gemini-2.0-flash-lite".

(** The module-level code that binds [client]; [GEMINI_API_KEY] is the
    value [os.getenv] gave. *)
Definition startup {L} (GEMINI_API_KEY : option str) : M L unit :=
  if negb (env_truthy GEMINI_API_KEY) then
    logger_error (lit "GEMINI_API_KEY environment variable not set") ;;
    store_client None
  else
    let key := match GEMINI_API_KEY with Some k => k | None => [] end in
    try_except
      (call (Configure key) (genai_configure L key) ;;
       c <- call (NewModel model_name) (genai_GenerativeModel L model_name) ;;
       store_client (Some c) ;;
       logger_info (lit "Gemini Client Initialized Successfully."))
      Exception
      (fun e =>
         logger_error (lit "Error initializing Gemini client: " ++ exn_str e) ;;
         store_client None).

(** ** The gateway (lines 50-118) *)

(** The dict literal [{"summary": .., "severity": .., "details": ..}]. *)
Definition result_dict (summary severity details : str) : value :=
  VDict [ (lit "summary", VStr summary);
          (lit "severity", VStr severity);
          (lit "details", VStr details) ].

(** Line 53. *)
Definition unavailable_result : value :=
  result_dict (lit "AI Service Not Available. Check API key setup.")
              (lit "Error") (lit "N/A").

(** Lines 109-113. *)
Definition parse_error_result (raw : str) : value :=
  result_dict (lit "Error parsing AI response") (lit "Error")
              (slice_to 500 raw).

(** Lines 116-118; [error_msg] is the f-string of line 116. *)
Definition error_msg (e : exn) : str :=
  lit "Gemini API or processing failed: " ++ exn_str e.

Definition failure_result (e : exn) : value :=
  result_dict (error_msg e) (lit "Error") (lit "N/A").

(** Lines 60-66: adjacent literals, concatenated by the parser. *)
Definition system_instruction : str :=
  lit "You are an expert, empathetic AI medical report analyzer. "
  ++ lit "Analyze the uploaded document (X-ray, lab report, or prescription). "
  ++ lit "Your output must be easy for a layperson to understand. "
  ++ lit "Critically, your output must strictly adhere to the provided JSON schema. "
  ++ lit "Do NOT include any text outside of the JSON object.".

Definition prompt_medical_image : str :=
  lit "Analyze this X-ray, CT, or medical image. Identify and describe any significant findings related to bone, tissue, or organs in simple, non-technical language. Provide a brief summary.".

Definition prompt_blood_report : str :=
  lit "Analyze this lab report image. Identify all abnormal or out-of-range parameters. Explain what the deviation from the normal range might suggest in simple, simple terms.".

Definition prompt_prescription : str :=
  lit "Decode this prescription image. List all medications, their dosage, and the precise daily schedule/frequency. "
  ++ lit "Place the decoded information in the 'details' field.".

Definition prompt_generic : str :=
  lit "Analyze this image and explain the medical content simply.".

(** [upload_type == 'literal']; [upload_type] is [None] when the form
    has no [type] field, and [None == '...'] is false. *)
Definition type_is (upload_type : option str) (s : string) : bool :=
  match upload_type with
  | Some t => str_eqb t (lit s)
  | None => false
  end.

(** Lines 69-79. *)
Definition select_prompt (upload_type : option str) : str :=
  if type_is upload_type "medical_image" then prompt_medical_image
  else if type_is upload_type "blood_report" then prompt_blood_report
  else if type_is upload_type "prescription" then prompt_prescription
  else prompt_generic.

(** The [generation_config] literal of lines 99-101. *)
Definition gateway_config : generation_config :=
  [ (lit "temperature", CfgFloat temperature) ].

(** The [contents] list of lines 94-98. *)
Definition gateway_contents {L} (img : Image L) (prompt : str)
  : list (part (Image L)) :=
  [ PartText system_instruction; PartImage img; PartText prompt ].

Definition analyze_with_gemini {L} (file_stream : bytes)
           (upload_type : option str) : M L value :=
  c <- load_client ;;
  match c with
  | None =>
      logger_error (lit "AI Service Not Available. Check API key setup.") ;;
      ret unavailable_result
  | Some client =>
      try_except
        (img <- call (ImageOpen file_stream) (Image_open L file_stream) ;;
         let prompt := select_prompt upload_type in
         let response_schema := response_schema in
         response <-
           call (GenerateContent client (gateway_contents img prompt)
                                 gateway_config)
                (generate_content L client (gateway_contents img prompt)
                                  gateway_config) ;;
         text <- lift (response_text response) ;;
         if str_truthy text then
           try_except
             (text' <- lift (response_text response) ;;
              v <- lift (json_loads L text') ;;
              ret v)
             JSONDecodeError
             (fun _ =>
                text'' <- lift (response_text response) ;;
                ret (parse_error_result text''))
         else
           (* the [if] falls through, the [try] ends, and so does the
              function: its value is [None] *)
           ret VNone)
        Exception
        (fun e =>
           logger_error (error_msg e) ;;
           ret (failure_result e))
  end.

(** ** The route (lines 121-133) *)

(** An uploaded file as Werkzeug hands it over ([FileStorage]). *)
Record FileStorage : Type :=
  mkFileStorage { filename : str; stream : bytes }.

(** [request.files] and [request.form]: the fields in the order sent. *)
Record Request : Type :=
  mkRequest { files : list (str * FileStorage); form : list (str * str) }.

(** Truth value of [request.files.get('file')]: [None] is false, and a
    [FileStorage] is true exactly when its filename is non-empty
    ([FileStorage.__bool__] is [bool(self.filename)]). *)
Definition file_truthy (file : option FileStorage) : bool :=
  match file with
  | None => false
  | Some f => str_truthy (filename f)
  end.

(** A view's return value [(jsonify(body), status)]. *)
Record HttpResponse : Type := mkHttp { body : value; status : Z }.

Definition no_file_body : value :=
  VDict [ (lit "error", VStr (lit "No file uploaded")) ].

Definition analyze_report {L} (request : Request) : M L HttpResponse :=
  logger_info (lit "Received analysis request") ;;
  let file := dict_get (lit "file") (files request) in
  let upload_type := dict_get (lit "type") (form request) in
  if negb (file_truthy file) then
    logger_warning (lit "No file uploaded") ;;
    ret (mkHttp no_file_body 400)
  else
    file_stream <-
      match file with
      | Some f => ret (stream f)
      | None =>
          (* [None.stream]; not reached, [None] is false *)
          raise (mkExn (OtherException (lit "AttributeError"))
                       (lit "'NoneType' object has no attribute 'stream'"))
      end ;;
    result <- analyze_with_gemini file_stream upload_type ;;
    logger_info (lit "Analysis completed successfully") ;;
    ret (mkHttp result 200).

(** ** The data model of the specification *)

(** The severities an [AnalysisResult] may carry: the four asked of the
    model, and [Error]. *)
Definition severity_values : list str := severity_enum ++ [lit "Error"].

(** An [AnalysisResult]: an object with the three string fields and a
    severity among [severity_values]. *)
Definition AnalysisResult (v : value) : Prop :=
  exists summary severity details,
    v = result_dict summary severity details /\ In severity severity_values.

(** [needle in hay] for strings. *)
Fixpoint str_prefixb (p s : str) : bool :=
  match p, s with
  | [], _ => true
  | x :: p', y :: s' => N.eqb x y && str_prefixb p' s'
  | _ :: _, [] => false
  end.

Fixpoint str_contains (needle hay : str) : bool :=
  str_prefixb needle hay
  || match hay with
     | [] => false
     | _ :: hay' => str_contains needle hay'
     end.

(** [v[k]] when [v] is a dict that has the key. *)
Definition field (k : string) (v : value) : option value :=
  match v with
  | VDict d => dict_get (lit k) d
  | _ => None
  end.

(** The schema the model is asked to follow for one property. *)
Definition property_schema (k : string) : option Schema :=
  dict_get (lit k) (schema_properties response_schema).

(** An exception [e] leaves the statements guarded by the [try] of line
    55: from the decoding, from the inference call, from reading the
    response's text, or from [json.loads] when line 108 does not catch
    it. *)
Inductive raised_in_try (L : Libraries) (c : GenerativeModel L)
          (file_stream : bytes) (upload_type : option str) (e : exn)
  : Prop :=
| raised_by_decoding :
    Image_open L file_stream = Raises e ->
    raised_in_try L c file_stream upload_type e
| raised_by_inference (img : Image L) :
    Image_open L file_stream = Returns img ->
    generate_content L c (gateway_contents img (select_prompt upload_type))
      gateway_config = Raises e ->
    raised_in_try L c file_stream upload_type e
| raised_by_text (img : Image L) (response : Response) :
    Image_open L file_stream = Returns img ->
    generate_content L c (gateway_contents img (select_prompt upload_type))
      gateway_config = Returns response ->
    response_text response = Raises e ->
    raised_in_try L c file_stream upload_type e
| raised_by_loads (img : Image L) (response : Response) (text : str) :
    Image_open L file_stream = Returns img ->
    generate_content L c (gateway_contents img (select_prompt upload_type))
      gateway_config = Returns response ->
    response_text response = Returns text ->
    text <> [] ->
    json_loads L text = Raises e ->
    isinstance e JSONDecodeError = false ->
    raised_in_try L c file_stream upload_type e.

(** ** Stub libraries for the examples *)

(** A decoder that accepts every non-empty upload. *)
Definition stub_decode (fp : bytes) : outcome bytes :=
  match fp with
  | [] => Raises (mkExn OSError (lit "cannot identify image file"))
  | _ :: _ => Returns fp
  end.

(** A string between double quotes (code point 34). *)
Definition quoted (s : string) : str := [34%N] ++ lit s ++ [34%N].

(** A JSON text that parses, with a severity outside the enumeration and
    no [details] member. *)
Definition sample_json : str :=
  lit "{" ++ quoted "summary" ++ lit ": " ++ quoted "ok" ++ lit ", "
  ++ quoted "severity" ++ lit ": " ++ quoted "unknown" ++ lit "}".

Definition sample_parsed : value :=
  VDict [ (lit "summary", VStr (lit "ok"));
          (lit "severity", VStr (lit "unknown")) ].

Definition sample_decode_error : exn :=
  mkExn JSONDecodeError (lit "Expecting value: line 1 column 1 (char 0)").

(** A parser that knows one text. *)
Definition stub_loads (s : str) : outcome value :=
  if str_eqb s sample_json then Returns sample_parsed
  else Raises sample_decode_error.

(** Libraries whose inference call always answers [reply]. *)
Definition stub_libraries (reply : outcome Response) : Libraries :=
  mkLibraries bytes str
    (fun _ => Returns tt)
    (fun name => Returns name)
    stub_decode
    (fun _ _ _ => reply)
    stub_loads.

Definition stub_client : str := model_name.

Definition stub_globals (reply : outcome Response)
  : globals (stub_libraries reply) :=
  mkGlobals (L := stub_libraries reply) (Some stub_client).

Definition stub_upload : bytes := [Byte.x89; Byte.x50; Byte.x4e; Byte.x47].

Definition text_reply (t : str) : outcome Response :=
  Returns (mkResponse (Returns t)).

(** ** Reading a trace *)

Definition is_log {L} (ev : event L) : bool :=
  match ev with Log _ _ => true | _ => false end.

(** A call into Pillow or the Gemini SDK. *)
Definition is_library_call {L} (ev : event L) : bool :=
  match ev with
  | Configure _ | NewModel _ | ImageOpen _ | GenerateContent _ _ _ => true
  | _ => false
  end.

(** Libraries whose SDK refuses the API key. *)
Definition sample_sdk_error : exn :=
  mkExn (OtherException (lit "InvalidArgument")) (lit "API key not valid").

Definition stub_libraries_bad_key : Libraries :=
  mkLibraries bytes str
    (fun _ => Raises sample_sdk_error)
    (fun name => Returns name)
    stub_decode
    (fun _ _ _ => text_reply sample_json)
    stub_loads.

Definition sample_request (name : str) (upload : bytes) (type : string)
  : Request :=
  mkRequest [(lit "file", mkFileStorage name upload)] [(lit "type", lit type)].

(** A model answer of 100000 opening brackets: [json.loads] gives up on
    it with [RecursionError], which is no [JSONDecodeError]. *)
#[warnings="-abstract-large-number"]
Definition deeply_nested : str := repeat 91%N 100000.

Definition sample_recursion_error : exn :=
  mkExn RecursionError
    (lit "maximum recursion depth exceeded while decoding a JSON array from a unicode string").

Definition stub_loads_deep (s : str) : outcome value :=
  if str_eqb s deeply_nested then Raises sample_recursion_error
  else stub_loads s.

(** Libraries that answer [deeply_nested]. *)
Definition stub_libraries_deep : Libraries :=
  mkLibraries bytes str
    (fun _ => Returns tt)
    (fun name => Returns name)
    stub_decode
    (fun _ _ _ => text_reply deeply_nested)
    stub_loads_deep.

Definition stub_globals_deep : globals stub_libraries_deep :=
  mkGlobals (L := stub_libraries_deep) (Some stub_client).

(** Ctrl-C while a library call is under way; [str(KeyboardInterrupt())]
    is the empty string. *)
Definition sample_interrupt : exn := mkExn KeyboardInterrupt [].

(** Libraries whose SDK is interrupted during [genai.configure]. *)
Definition stub_libraries_interrupted : Libraries :=
  mkLibraries bytes str
    (fun _ => Raises sample_interrupt)
    (fun name => Returns name)
    stub_decode
    (fun _ _ _ => text_reply sample_json)
    stub_loads.

(** The status of the response a run of the route ends with. *)
Definition status_of_run {L} (r : run L HttpResponse) : option Z :=
  match result r with
  | Returns h => Some (status h)
  | Raises _ => None
  end.

(** ** Properties *)

(** [bind] and [try_except] by cases on the run of their first
    argument. *)
Lemma bind_match {L A B} (m : M L A) (k : A -> M L B) (g : globals L) :
  bind m k g
  = match m g with
    | mkRun (Returns a) g1 ev1 =>
        match k a g1 with
        | mkRun r g2 ev2 => mkRun r g2 (ev1 ++ ev2)
        end
    | mkRun (Raises e) g1 ev1 => mkRun (Raises e) g1 ev1
    end.
Proof.
  unfold bind. destruct (m g) as [[a|e] g1 ev1]; cbn; [|reflexivity].
  destruct (k a g1); reflexivity.
Qed.

Lemma try_except_match {L A} (body : M L A) (cls : exn_class)
      (handler : exn -> M L A) (g : globals L) :
  try_except body cls handler g
  = match body g with
    | mkRun (Returns a) g1 ev1 => mkRun (Returns a) g1 ev1
    | mkRun (Raises e) g1 ev1 =>
        if isinstance e cls then
          match handler e g1 with
          | mkRun r g2 ev2 => mkRun r g2 (ev1 ++ ev2)
          end
        else mkRun (Raises e) g1 ev1
    end.
Proof.
  unfold try_except. destruct (body g) as [[a|e] g1 ev1]; cbn;
    [reflexivity|].
  destruct (isinstance e cls); [|reflexivity].
  destruct (handler e g1); reflexivity.
Qed.

(** Symbolic evaluation of the monad's combinators, outermost first. *)
Ltac run_py :=
  repeat
    (progress
       (try rewrite bind_match; try rewrite try_except_match;
        cbv beta iota delta
          [ret raise emit call lift load_client store_client
           logger_info logger_warning logger_error];
        cbn [result globals_after events client app negb])).

Lemma str_eqb_eq (a b : str) : str_eqb a b = true <-> a = b.
Proof.
  revert b; induction a as [|x a IH]; intros [|y b]; simpl;
    try (split; [discriminate | discriminate]); try tauto.
  rewrite andb_true_iff, N.eqb_eq, IH.
  split; [intros [-> ->]; reflexivity | intros H; inversion H; auto].
Qed.

Lemma str_eqb_refl (a : str) : str_eqb a a = true.
Proof. apply str_eqb_eq; reflexivity. Qed.

Lemma str_eqb_false_neq (a b : str) : str_eqb a b = false -> a <> b.
Proof.
  intros H Heq. apply str_eqb_eq in Heq. congruence.
Qed.

Lemma some_str_neq (a b : str) : str_eqb a b = false -> Some a <> Some b.
Proof.
  intros H [= Heq]. revert Heq. apply str_eqb_false_neq. exact H.
Qed.

(** Closes a goal [a <> b] or [Some a <> Some b] between two strings
    that evaluate to different literals. *)
Ltac str_neq :=
  lazymatch goal with
  | |- Some _ <> Some _ => apply some_str_neq; vm_compute; reflexivity
  | |- _ <> _ => apply str_eqb_false_neq; vm_compute; reflexivity
  end.

Lemma str_truthy_false (s : str) : str_truthy s = false <-> s = [].
Proof. destruct s; simpl; split; congruence. Qed.

(** [JSONDecodeError] derives from [Exception]. *)
Lemma JSONDecodeError_is_Exception (e : exn) :
  isinstance e JSONDecodeError = true -> isinstance e Exception = true.
Proof.
  unfold isinstance. destruct (exn_cls e); simpl; congruence.
Qed.

(** All the paths through [analyze_with_gemini], one goal each. *)
Ltac gateway_paths L g fs :=
  unfold analyze_with_gemini; run_py;
  destruct (client g) as [?c|]; run_py;
  [ destruct (Image_open L fs) as [?img|?e]; run_py;
    [ destruct (generate_content L _ _ _) as [?resp|?e]; run_py;
      [ match goal with
        | |- context [response_text ?r] =>
            destruct (response_text r) as [?t|?e]; run_py
        end;
        [ match goal with
          | |- context [str_truthy ?t] =>
              destruct (str_truthy t); run_py;
              [ destruct (json_loads L t) as [?v|?e] eqn:?Hloads; run_py;
                [ | match goal with
                    | |- context [isinstance ?e JSONDecodeError] =>
                        destruct (isinstance e JSONDecodeError); run_py;
                        [ | destruct (isinstance e Exception) eqn:?Hexc;
                            run_py ]
                    end ]
              | ]
          end
        | match goal with
          | |- context [isinstance ?e Exception] =>
              destruct (isinstance e Exception) eqn:?Hexc; run_py
          end ]
      | match goal with
        | |- context [isinstance ?e Exception] =>
            destruct (isinstance e Exception) eqn:?Hexc; run_py
        end ]
    | match goal with
      | |- context [isinstance ?e Exception] =>
          destruct (isinstance e Exception) eqn:?Hexc; run_py
      end ]
  | ].

(** What the gateway lets through does not derive from [Exception]. *)
Lemma analyze_with_gemini_raises L (g : globals L) fs ut e :
  result (analyze_with_gemini fs ut g) = Raises e ->
  isinstance e Exception = false.
Proof.
  gateway_paths L g fs; intros H; try discriminate H;
    injection H as <-; assumption.
Qed.

(** *** The paths through [analyze_with_gemini] *)

Section Paths.
Variable L : Libraries.
Variable g : globals L.
Variable file_stream : bytes.
Variable upload_type : option str.

Let prompt := select_prompt upload_type.

(** Line 51: no client. *)
Lemma path_unavailable :
  client g = None ->
  analyze_with_gemini file_stream upload_type g
  = mkRun (Returns unavailable_result) g
      [Log ERROR (lit "AI Service Not Available. Check API key setup.")].
Proof.
  intros Hc. unfold analyze_with_gemini; run_py. rewrite Hc; run_py.
  reflexivity.
Qed.

Variable c : GenerativeModel L.
Hypothesis client_available : client g = Some c.

(** Line 57 raises what line 115 catches. *)
Lemma path_decode_raises e :
  Image_open L file_stream = Raises e ->
  isinstance e Exception = true ->
  analyze_with_gemini file_stream upload_type g
  = mkRun (Returns (failure_result e)) g
      [ImageOpen file_stream; Log ERROR (error_msg e)].
Proof.
  intros Hd He. unfold analyze_with_gemini; run_py.
  rewrite client_available, Hd; run_py. rewrite He; run_py. reflexivity.
Qed.

(** Line 57 raises what line 115 does not catch. *)
Lemma path_decode_propagates e :
  Image_open L file_stream = Raises e ->
  isinstance e Exception = false ->
  analyze_with_gemini file_stream upload_type g
  = mkRun (Raises e) g [ImageOpen file_stream].
Proof.
  intros Hd He. unfold analyze_with_gemini; run_py.
  rewrite client_available, Hd; run_py. rewrite He; run_py. reflexivity.
Qed.

Variable img : Image L.
Hypothesis decoded : Image_open L file_stream = Returns img.

Let call_event : event L :=
  GenerateContent c (gateway_contents img prompt) gateway_config.

(** Line 93 raises what line 115 catches. *)
Lemma path_call_raises e :
  generate_content L c (gateway_contents img prompt) gateway_config
  = Raises e ->
  isinstance e Exception = true ->
  analyze_with_gemini file_stream upload_type g
  = mkRun (Returns (failure_result e)) g
      [ImageOpen file_stream; call_event; Log ERROR (error_msg e)].
Proof.
  intros Hr He. unfold analyze_with_gemini; run_py.
  rewrite client_available, decoded; run_py.
  fold prompt. rewrite Hr; run_py. rewrite He; run_py. reflexivity.
Qed.

(** Line 93 raises what line 115 does not catch. *)
Lemma path_call_propagates e :
  generate_content L c (gateway_contents img prompt) gateway_config
  = Raises e ->
  isinstance e Exception = false ->
  analyze_with_gemini file_stream upload_type g
  = mkRun (Raises e) g [ImageOpen file_stream; call_event].
Proof.
  intros Hr He. unfold analyze_with_gemini; run_py.
  rewrite client_available, decoded; run_py.
  fold prompt. rewrite Hr; run_py. rewrite He; run_py. reflexivity.
Qed.

Variable response : Response.
Hypothesis answered :
  generate_content L c (gateway_contents img prompt) gateway_config
  = Returns response.

(** Line 105 raises: the response has no text to give. *)
Lemma path_text_raises e :
  response_text response = Raises e ->
  isinstance e Exception = true ->
  analyze_with_gemini file_stream upload_type g
  = mkRun (Returns (failure_result e)) g
      [ImageOpen file_stream; call_event; Log ERROR (error_msg e)].
Proof.
  intros Ht He. unfold analyze_with_gemini; run_py.
  rewrite client_available, decoded; run_py.
  fold prompt. rewrite answered; run_py. rewrite Ht; run_py.
  rewrite He; run_py. reflexivity.
Qed.

Lemma path_text_propagates e :
  response_text response = Raises e ->
  isinstance e Exception = false ->
  analyze_with_gemini file_stream upload_type g
  = mkRun (Raises e) g [ImageOpen file_stream; call_event].
Proof.
  intros Ht He. unfold analyze_with_gemini; run_py.
  rewrite client_available, decoded; run_py.
  fold prompt. rewrite answered; run_py. rewrite Ht; run_py.
  rewrite He; run_py. reflexivity.
Qed.

Variable text : str.
Hypothesis has_text : response_text response = Returns text.

(** Line 105 is false: nothing is returned. *)
Lemma path_text_empty :
  text = [] ->
  analyze_with_gemini file_stream upload_type g
  = mkRun (Returns VNone) g [ImageOpen file_stream; call_event].
Proof.
  intros ->. unfold analyze_with_gemini; run_py.
  rewrite client_available, decoded; run_py.
  fold prompt. rewrite answered; run_py. rewrite has_text; run_py.
  reflexivity.
Qed.

Hypothesis nonempty : text <> [].

Lemma nonempty_truthy : str_truthy text = true.
Proof. destruct text; [congruence | reflexivity]. Qed.

(** Line 107 returns. *)
Lemma path_parsed v :
  json_loads L text = Returns v ->
  analyze_with_gemini file_stream upload_type g
  = mkRun (Returns v) g [ImageOpen file_stream; call_event].
Proof.
  intros Hj. unfold analyze_with_gemini; run_py.
  rewrite client_available, decoded; run_py.
  fold prompt. rewrite answered; run_py. rewrite has_text; run_py.
  rewrite nonempty_truthy; run_py. rewrite Hj; run_py. reflexivity.
Qed.

(** Line 107 raises what line 108 catches. *)
Lemma path_decode_error e :
  json_loads L text = Raises e ->
  isinstance e JSONDecodeError = true ->
  analyze_with_gemini file_stream upload_type g
  = mkRun (Returns (parse_error_result text)) g
      [ImageOpen file_stream; call_event].
Proof.
  intros Hj He. unfold analyze_with_gemini; run_py.
  rewrite client_available, decoded; run_py.
  fold prompt. rewrite answered; run_py. rewrite has_text; run_py.
  rewrite nonempty_truthy; run_py. rewrite Hj; run_py.
  rewrite He; run_py. reflexivity.
Qed.

(** Line 107 raises something else, which line 115 catches. *)
Lemma path_loads_raises e :
  json_loads L text = Raises e ->
  isinstance e JSONDecodeError = false ->
  isinstance e Exception = true ->
  analyze_with_gemini file_stream upload_type g
  = mkRun (Returns (failure_result e)) g
      [ImageOpen file_stream; call_event; Log ERROR (error_msg e)].
Proof.
  intros Hj He Hx. unfold analyze_with_gemini; run_py.
  rewrite client_available, decoded; run_py.
  fold prompt. rewrite answered; run_py. rewrite has_text; run_py.
  rewrite nonempty_truthy; run_py. rewrite Hj; run_py.
  rewrite He; run_py. rewrite Hx; run_py. reflexivity.
Qed.

(** Line 107 raises something neither handler catches. *)
Lemma path_loads_propagates e :
  json_loads L text = Raises e ->
  isinstance e Exception = false ->
  analyze_with_gemini file_stream upload_type g
  = mkRun (Raises e) g [ImageOpen file_stream; call_event].
Proof.
  intros Hj Hx.
  assert (He : isinstance e JSONDecodeError = false).
  { destruct (isinstance e JSONDecodeError) eqn:E; [|reflexivity].
    apply JSONDecodeError_is_Exception in E. congruence. }
  unfold analyze_with_gemini; run_py.
  rewrite client_available, decoded; run_py.
  fold prompt. rewrite answered; run_py. rewrite has_text; run_py.
  rewrite nonempty_truthy; run_py. rewrite Hj; run_py.
  rewrite He; run_py. rewrite Hx; run_py. reflexivity.
Qed.
End Paths.

Arguments path_unavailable {L g} file_stream upload_type _.
Arguments path_decode_raises {L g} file_stream upload_type {c} _ {e} _ _.
Arguments path_decode_propagates
  {L g} file_stream upload_type {c} _ {e} _ _.
Arguments path_call_raises
  {L g} file_stream upload_type {c} _ {img} _ {e} _ _.
Arguments path_call_propagates
  {L g} file_stream upload_type {c} _ {img} _ {e} _ _.
Arguments path_text_raises
  {L g} file_stream upload_type {c} _ {img} _ {response} _ {e} _ _.
Arguments path_text_propagates
  {L g} file_stream upload_type {c} _ {img} _ {response} _ {e} _ _.
Arguments path_text_empty
  {L g} file_stream upload_type {c} _ {img} _ {response} _ {text} _ _.
Arguments path_parsed
  {L g} file_stream upload_type {c} _ {img} _ {response} _ {text} _ _ {v} _.
Arguments path_decode_error
  {L g} file_stream upload_type {c} _ {img} _ {response} _ {text} _ _ {e} _ _.
Arguments path_loads_raises
  {L g} file_stream upload_type {c} _ {img} _ {response} _ {text} _ _ {e}
  _ _ _.
Arguments path_loads_propagates
  {L g} file_stream upload_type {c} _ {img} _ {response} _ {text} _ _ {e}
  _ _.

(** With a client and a decodable upload, the gateway opens the image,
    makes one inference call, and logs at most one error line. *)
Lemma gateway_events_available L (g : globals L) fs ut c img :
  client g = Some c ->
  Image_open L fs = Returns img ->
  exists rest,
    events (analyze_with_gemini fs ut g)
    = ImageOpen fs
      :: GenerateContent c (gateway_contents img (select_prompt ut))
           gateway_config
      :: rest
    /\ (rest = [] \/ exists e, rest = [Log ERROR (error_msg e)]).
Proof.
  intros Hc Hd. unfold analyze_with_gemini; run_py.
  rewrite Hc, Hd; run_py.
  destruct (generate_content L c _ _) as [resp|e]; run_py.
  2:{ destruct (isinstance e Exception); run_py; eauto 6. }
  destruct (response_text resp) as [t|e]; run_py.
  2:{ destruct (isinstance e Exception); run_py; eauto 6. }
  destruct (str_truthy t); run_py; [|eauto].
  destruct (json_loads L t) as [v|e]; run_py; [eauto|].
  destruct (isinstance e JSONDecodeError); run_py; [eauto|].
  destruct (isinstance e Exception); run_py; eauto 6.
Qed.

(** The gateway leaves the globals as it found them. *)
Lemma analyze_with_gemini_globals L (g : globals L) fs ut :
  globals_after (analyze_with_gemini fs ut g) = g.
Proof.
  gateway_paths L g fs; reflexivity.
Qed.

(** The gateway never assigns [client]. *)
Lemma analyze_with_gemini_no_store L (g : globals L) fs ut :
  existsb is_store (events (analyze_with_gemini fs ut g)) = false.
Proof.
  gateway_paths L g fs; reflexivity.
Qed.

(** The route with a file the guard of line 127 rejects. *)
Lemma analyze_report_falsy_file L (g : globals L) req :
  file_truthy (dict_get (lit "file") (files req)) = false ->
  analyze_report req g
  = mkRun (Returns (mkHttp no_file_body 400)) g
      [Log INFO (lit "Received analysis request");
       Log WARNING (lit "No file uploaded")].
Proof.
  intros Hf. unfold analyze_report; run_py. rewrite Hf; run_py.
  reflexivity.
Qed.

Lemma filename_truthy (f : FileStorage) :
  filename f <> [] -> file_truthy (Some f) = true.
Proof.
  intros Hn. simpl. destruct (filename f); [congruence | reflexivity].
Qed.

(** The route with a file the guard lets through, when the gateway
    returns: its trace lies between the route's two log lines. *)
Lemma analyze_report_truthy_file L (g : globals L) req f v :
  dict_get (lit "file") (files req) = Some f ->
  filename f <> [] ->
  result (analyze_with_gemini (stream f)
            (dict_get (lit "type") (form req)) g) = Returns v ->
  analyze_report req g
  = mkRun (Returns (mkHttp v 200)) g
      (Log INFO (lit "Received analysis request")
       :: events (analyze_with_gemini (stream f)
                    (dict_get (lit "type") (form req)) g)
       ++ [Log INFO (lit "Analysis completed successfully")]).
Proof.
  intros Hf Hn Hv.
  pose proof (analyze_with_gemini_globals L g (stream f)
                (dict_get (lit "type") (form req))) as Hg.
  unfold analyze_report; run_py. rewrite Hf.
  rewrite (filename_truthy f Hn); run_py.
  destruct (analyze_with_gemini (stream f)
              (dict_get (lit "type") (form req)) g) as [res g1 evs].
  cbn in Hv, Hg. subst res g1. run_py. reflexivity.
Qed.

(** The same when the gateway lets an exception through: the route has
    no handler, and its second log line is not reached. *)
Lemma analyze_report_gateway_raises L (g : globals L) req f e :
  dict_get (lit "file") (files req) = Some f ->
  filename f <> [] ->
  result (analyze_with_gemini (stream f)
            (dict_get (lit "type") (form req)) g) = Raises e ->
  analyze_report req g
  = mkRun (Raises e) g
      (Log INFO (lit "Received analysis request")
       :: events (analyze_with_gemini (stream f)
                    (dict_get (lit "type") (form req)) g)).
Proof.
  intros Hf Hn Hv.
  pose proof (analyze_with_gemini_globals L g (stream f)
                (dict_get (lit "type") (form req))) as Hg.
  unfold analyze_report; run_py. rewrite Hf.
  rewrite (filename_truthy f Hn); run_py.
  destruct (analyze_with_gemini (stream f)
              (dict_get (lit "type") (form req)) g) as [res g1 evs].
  cbn in Hv, Hg. subst res g1. run_py. reflexivity.
Qed.

(** The three shapes of the field [file]. *)
Lemma file_cases (file : option FileStorage) :
  (file_truthy file = false
   /\ (file = None \/ exists f, file = Some f /\ filename f = []))
  \/ (exists f, file = Some f /\ filename f <> []).
Proof.
  destruct file as [f|]; [|left; split; [reflexivity | left; reflexivity]].
  destruct (filename f) as [|x n] eqn:Hn.
  - left. split; [simpl; rewrite Hn; reflexivity|].
    right. exists f. split; [reflexivity | exact Hn].
  - right. exists f. split; [reflexivity|]. rewrite Hn. discriminate.
Qed.

(** The route neither assigns [client] nor changes the globals. *)
Lemma analyze_report_frame L (g : globals L) req :
  globals_after (analyze_report req g) = g
  /\ existsb is_store (events (analyze_report req g)) = false.
Proof.
  destruct (file_cases (dict_get (lit "file") (files req)))
    as [[Hf _] | (f & Hfile & Hn)].
  - rewrite (analyze_report_falsy_file L g req Hf). split; reflexivity.
  - pose proof (analyze_with_gemini_no_store L g (stream f)
                  (dict_get (lit "type") (form req))) as Hs.
    destruct (result (analyze_with_gemini (stream f)
                        (dict_get (lit "type") (form req)) g))
      as [v|e] eqn:Hv.
    + rewrite (analyze_report_truthy_file L g req f v Hfile Hn Hv).
      cbn [globals_after events existsb is_store orb].
      split; [reflexivity|]. rewrite existsb_app, Hs. reflexivity.
    + rewrite (analyze_report_gateway_raises L g req f e Hfile Hn Hv).
      cbn [globals_after events existsb is_store orb].
      split; [reflexivity | exact Hs].
Qed.

(** *** Start-up *)

(** All the paths through [startup], one goal each. *)
Ltac startup_paths L key :=
  unfold startup;
  destruct key as [[|?x ?k]|]; cbn [env_truthy str_truthy negb]; run_py;
  [ | destruct (genai_configure L _) as [[]|?e] eqn:?Hcfg; run_py;
      [ destruct (genai_GenerativeModel L model_name) as [?c|?e] eqn:?Hnew;
        run_py | ];
      try match goal with
          | |- context [isinstance ?e Exception] =>
              destruct (isinstance e Exception) eqn:?Hexc; run_py
          end
    | ].

(** What start-up lets through does not derive from [Exception], and it
    comes before any assignment to [client]. *)
Lemma startup_raises L (g0 : globals L) key e :
  result (startup key g0) = Raises e ->
  isinstance e Exception = false
  /\ globals_after (startup key g0) = g0
  /\ filter is_store (events (startup key g0)) = []
  /\ exists k,
       key = Some k
       /\ (genai_configure L k = Raises e
           \/ genai_GenerativeModel L model_name = Raises e).
Proof.
  startup_paths L key; intros H; try discriminate H; injection H as <-;
    (split; [assumption|]); (split; [reflexivity|]);
    (split; [reflexivity|]); eauto.
Qed.

(** When start-up completes it has assigned [client] once, and the value
    assigned is the one the process keeps. *)
Lemma startup_stores_once L key (g0 : globals L) :
  result (startup key g0) = Returns tt ->
  exists v,
    filter is_store (events (startup key g0)) = [StoreClient v]
    /\ globals_after (startup key g0) = mkGlobals v.
Proof.
  startup_paths L key; intros H; try discriminate H;
    eexists; split; reflexivity.
Qed.

(** Start-up opens no upload and calls no model. *)
Lemma startup_no_upload_calls L (g0 : globals L) key :
  existsb is_image_open (events (startup key g0)) = false
  /\ existsb is_inference_call (events (startup key g0)) = false.
Proof.
  startup_paths L key; split; reflexivity.
Qed.

(** The run of a successful start-up. *)
Lemma startup_run_success L (g0 : globals L) k c :
  k <> [] ->
  genai_configure L k = Returns tt ->
  genai_GenerativeModel L model_name = Returns c ->
  startup (Some k) g0
  = mkRun (Returns tt) (mkGlobals (Some c))
      [Configure k; NewModel model_name; StoreClient (Some c);
       Log INFO (lit "Gemini Client Initialized Successfully.")].
Proof.
  intros Hk Hcfg Hnew. unfold startup.
  destruct k as [|x k]; [congruence|].
  cbn [env_truthy str_truthy negb]. run_py.
  rewrite Hcfg; run_py. rewrite Hnew; run_py. reflexivity.
Qed.

(** *** Prompt selection *)

Lemma select_prompt_cases (ut : option str) :
  (ut = Some (lit "medical_image")
   /\ select_prompt ut = prompt_medical_image)
  \/ (ut = Some (lit "blood_report")
      /\ select_prompt ut = prompt_blood_report)
  \/ (ut = Some (lit "prescription")
      /\ select_prompt ut = prompt_prescription)
  \/ (ut <> Some (lit "medical_image")
      /\ ut <> Some (lit "blood_report")
      /\ ut <> Some (lit "prescription")
      /\ select_prompt ut = prompt_generic).
Proof.
  unfold select_prompt, type_is.
  destruct ut as [t|].
  2:{ right; right; right. repeat split; discriminate. }
  destruct (str_eqb t (lit "medical_image")) eqn:E1.
  { apply str_eqb_eq in E1. subst t. left. split; reflexivity. }
  destruct (str_eqb t (lit "blood_report")) eqn:E2.
  { apply str_eqb_eq in E2. subst t. right; left. split; reflexivity. }
  destruct (str_eqb t (lit "prescription")) eqn:E3.
  { apply str_eqb_eq in E3. subst t. right; right; left. split; reflexivity. }
  right; right; right.
  repeat split; try reflexivity; intros [= ->];
    rewrite str_eqb_refl in *; discriminate.
Qed.

(** The four prompts and the three literal types are pairwise
    different. *)
Lemma prompts_distinct :
  prompt_medical_image <> prompt_blood_report
  /\ prompt_medical_image <> prompt_prescription
  /\ prompt_medical_image <> prompt_generic
  /\ prompt_blood_report <> prompt_prescription
  /\ prompt_blood_report <> prompt_generic
  /\ prompt_prescription <> prompt_generic.
Proof.
  repeat split; str_neq.
Qed.

Lemma types_distinct :
  Some (lit "medical_image") <> Some (lit "blood_report")
  /\ Some (lit "medical_image") <> Some (lit "prescription")
  /\ Some (lit "blood_report") <> Some (lit "prescription").
Proof.
  repeat split; str_neq.
Qed.

(** Each prompt is selected for its own type and for nothing else. *)
Lemma select_prompt_iff (ut : option str) :
  (select_prompt ut = prompt_medical_image
   <-> ut = Some (lit "medical_image"))
  /\ (select_prompt ut = prompt_blood_report
      <-> ut = Some (lit "blood_report"))
  /\ (select_prompt ut = prompt_prescription
      <-> ut = Some (lit "prescription"))
  /\ (select_prompt ut = prompt_generic
      <-> ut <> Some (lit "medical_image")
          /\ ut <> Some (lit "blood_report")
          /\ ut <> Some (lit "prescription")).
Proof.
  destruct prompts_distinct as (D12 & D13 & D14 & D23 & D24 & D34).
  destruct types_distinct as (T12 & T13 & T23).
  destruct (select_prompt_cases ut)
    as [[Hu Hp] | [[Hu Hp] | [[Hu Hp] | (N1 & N2 & N3 & Hp)]]];
    rewrite Hp; try rewrite Hu;
    repeat split; intros; try reflexivity; try assumption;
    try congruence; intuition congruence.
Qed.

(** *** A run of start-up on the stubs *)

(** Ctrl-C during [genai.configure] ends start-up: line 45 does not
    catch it, nothing is logged and [client] is never bound. *)
Example startup_interrupted :
  startup (L := stub_libraries_interrupted) (Some (lit "AIza-test"))
    (mkGlobals None)
  = mkRun (Raises sample_interrupt) (mkGlobals None)
      [Configure (lit "AIza-test")].
Proof. reflexivity. Qed.

(** *** Two runs of the route on the stubs *)

(** An empty answer of the model reaches the caller as [null] with
    status 200. *)
Example report_on_empty_text :
  result (analyze_report (L := stub_libraries (text_reply []))
            (mkRequest [(lit "file",
                         mkFileStorage (lit "scan.png") stub_upload)]
                       [(lit "type", lit "prescription")])
            (stub_globals (text_reply [])))
  = Returns (mkHttp VNone 200).
Proof. reflexivity. Qed.

(** A file part without a filename is answered like a missing one. *)
Example report_on_empty_filename :
  analyze_report (L := stub_libraries (text_reply sample_json))
    (mkRequest [(lit "file", mkFileStorage [] stub_upload)]
               [(lit "type", lit "prescription")])
    (stub_globals (text_reply sample_json))
  = mkRun (Returns (mkHttp no_file_body 400))
      (stub_globals (text_reply sample_json))
      [Log INFO (lit "Received analysis request");
       Log WARNING (lit "No file uploaded")].
Proof. reflexivity. Qed.

(** Three facts about the run on [deeply_nested]. *)
Lemma deep_run :
  result (analyze_with_gemini (L := stub_libraries_deep) stub_upload None
            stub_globals_deep)
  = Returns (failure_result sample_recursion_error).
Proof. vm_compute. reflexivity. Qed.

Lemma deep_nonempty : deeply_nested <> [].
Proof. apply str_eqb_false_neq. vm_compute. reflexivity. Qed.

Lemma deep_loads :
  json_loads stub_libraries_deep deeply_nested
  = Raises sample_recursion_error.
Proof. vm_compute. reflexivity. Qed.

(** *** The claims *)

(** C1 (the code departs from it).  The claim: every invocation returns
    an [AnalysisResult], also when the inference call succeeds with an
    empty text.  The code: with a client, a decodable upload and an
    empty response text, the test of line 105 is false, no [return] is
    reached, and the value of the call is [None], which is no
    [AnalysisResult]. *)
Theorem analyze_with_gemini_empty_text_returns_None :
  forall L (g : globals L) fs ut c img resp,
    client g = Some c ->
    Image_open L fs = Returns img ->
    generate_content L c (gateway_contents img (select_prompt ut))
      gateway_config = Returns resp ->
    response_text resp = Returns [] ->
    result (analyze_with_gemini fs ut g) = Returns VNone
    /\ ~ AnalysisResult VNone.
Proof.
  intros L g fs ut c img resp Hc Hd Hr Ht. split.
  - rewrite (path_text_empty fs ut Hc Hd Hr Ht eq_refl). reflexivity.
  - intros (sm & sv & dt & Heq & _). discriminate Heq.
Qed.

Lemma analyze_with_gemini_empty_text_witness :
  result (analyze_with_gemini stub_upload (Some (lit "prescription"))
            (stub_globals (text_reply [])))
  = Returns VNone
  /\ ~ AnalysisResult VNone.
Proof.
  apply (analyze_with_gemini_empty_text_returns_None
           (stub_libraries (text_reply [])) (stub_globals (text_reply []))
           stub_upload (Some (lit "prescription"))
           stub_client stub_upload (mkResponse (Returns [])));
    reflexivity.
Defined.

(** C2 (the code departs from it).  The claim: the inference call is
    made with the three-field schema and temperature 0.2.  The code:
    the call carries the system instruction, the image and the prompt,
    and a configuration whose only entry is the temperature;
    [response_schema] is built and never passed. *)
#[warnings="-inexact-float"]
Theorem inference_call_omits_response_schema :
  forall L (g : globals L) fs ut c img,
    client g = Some c ->
    Image_open L fs = Returns img ->
    (exists rest,
        events (analyze_with_gemini fs ut g)
        = ImageOpen fs
          :: GenerateContent c
               [PartText system_instruction; PartImage img;
                PartText (select_prompt ut)]
               [(lit "temperature", CfgFloat temperature)]
          :: rest
        /\ existsb is_inference_call rest = false)
    /\ dict_get (lit "temperature") gateway_config = Some (CfgFloat 0.2%float)
    /\ dict_get (lit "response_schema") gateway_config = None
    /\ (forall k s, ~ In (k, CfgSchema s) gateway_config).
Proof.
  intros L g fs ut c img Hc Hd. repeat split.
  - destruct (gateway_events_available L g fs ut c img Hc Hd) as (rest & -> & Hrest).
    exists rest. split; [reflexivity|].
    destruct Hrest as [-> | [e ->]]; reflexivity.
  - intros k s [H | []]. discriminate H.
Qed.

Lemma inference_call_omits_response_schema_witness :
  dict_get (lit "response_schema") gateway_config = None
  /\ events (analyze_with_gemini stub_upload (Some (lit "blood_report"))
               (stub_globals (text_reply sample_json)))
     = [ImageOpen stub_upload;
        @GenerateContent (stub_libraries (text_reply sample_json))
          stub_client
          [PartText system_instruction; PartImage stub_upload;
           PartText prompt_blood_report]
          [(lit "temperature", CfgFloat temperature)]].
Proof.
  destruct (inference_call_omits_response_schema
              (stub_libraries (text_reply sample_json))
              (stub_globals (text_reply sample_json))
              stub_upload (Some (lit "blood_report"))
              stub_client stub_upload eq_refl eq_refl)
    as (_ & _ & Hnone & _).
  split; [exact Hnone | reflexivity].
Defined.

(** C3 as stated fails: a text can fail to parse without
    [JSONDecodeError].  On 100000 opening brackets [json.loads] raises
    [RecursionError]; line 108 does not catch it, line 115 does, and the
    result is the "Gemini API or processing failed" dict. *)
Lemma recursion_error_is_not_a_parse_error :
  result (analyze_with_gemini (L := stub_libraries_deep) stub_upload None
            stub_globals_deep)
  = Returns (failure_result sample_recursion_error)
  /\ ~ (forall L (g : globals L) fs ut c img resp text e,
          client g = Some c ->
          Image_open L fs = Returns img ->
          generate_content L c (gateway_contents img (select_prompt ut))
            gateway_config = Returns resp ->
          response_text resp = Returns text ->
          text <> [] ->
          json_loads L text = Raises e ->
          result (analyze_with_gemini fs ut g)
          = Returns (parse_error_result text)).
Proof.
  split; [exact deep_run|].
  intros H.
  specialize (H stub_libraries_deep stub_globals_deep
                stub_upload None stub_client stub_upload
                (mkResponse (Returns deeply_nested)) deeply_nested
                sample_recursion_error eq_refl eq_refl eq_refl eq_refl
                deep_nonempty deep_loads).
  rewrite deep_run in H. discriminate H.
Qed.

(** C3, amended.  When the inference call returns a non-empty text on
    which [json.loads] raises [JSONDecodeError], the gateway returns the
    dict with summary "Error parsing AI response", severity "Error" and,
    as details, the first 500 characters of the text: a prefix of the
    text of length [min n 500]. *)
Theorem parse_failure_result :
  forall L (g : globals L) fs ut c img resp text e,
    client g = Some c ->
    Image_open L fs = Returns img ->
    generate_content L c (gateway_contents img (select_prompt ut))
      gateway_config = Returns resp ->
    response_text resp = Returns text ->
    text <> [] ->
    json_loads L text = Raises e ->
    isinstance e JSONDecodeError = true ->
    exists details,
      result (analyze_with_gemini fs ut g)
      = Returns (VDict [ (lit "summary", VStr (lit "Error parsing AI response"));
                         (lit "severity", VStr (lit "Error"));
                         (lit "details", VStr details) ])
      /\ details = firstn 500 text
      /\ List.length details = Nat.min (List.length text) 500
      /\ exists rest, text = details ++ rest.
Proof.
  intros L g fs ut c img resp text e Hc Hd Hr Ht Hne Hj He.
  exists (firstn 500 text).
  rewrite (path_decode_error fs ut Hc Hd Hr Ht Hne Hj He).
  repeat split.
  - rewrite length_firstn. apply Nat.min_comm.
  - exists (skipn 500 text). symmetry. apply firstn_skipn.
Qed.

Lemma parse_failure_result_witness :
  let text := repeat 120%N 501 in
  exists details,
    result (analyze_with_gemini stub_upload None
              (stub_globals (text_reply text)))
    = Returns (VDict [ (lit "summary", VStr (lit "Error parsing AI response"));
                       (lit "severity", VStr (lit "Error"));
                       (lit "details", VStr details) ])
    /\ details = firstn 500 text
    /\ List.length details = Nat.min (List.length text) 500
    /\ exists rest, text = details ++ rest.
Proof.
  intros text.
  apply (parse_failure_result
           (stub_libraries (text_reply text)) (stub_globals (text_reply text))
           stub_upload None stub_client stub_upload
           (mkResponse (Returns text)) text sample_decode_error);
    try reflexivity.
  discriminate.
Defined.

(** C4.  Without a client the gateway returns the fixed dict
    {summary: "AI Service Not Available. Check API key setup.",
    severity: "Error", details: "N/A"} for every upload and every type,
    and does nothing else than log one line: no image is opened, no
    inference call is made. *)
Theorem unavailable_client_short_circuits :
  forall L (g : globals L) fs ut,
    client g = None ->
    analyze_with_gemini fs ut g
    = mkRun
        (Returns
           (VDict [ (lit "summary",
                     VStr (lit "AI Service Not Available. Check API key setup."));
                    (lit "severity", VStr (lit "Error"));
                    (lit "details", VStr (lit "N/A")) ]))
        g
        [Log ERROR (lit "AI Service Not Available. Check API key setup.")]
    /\ existsb is_image_open (events (analyze_with_gemini fs ut g)) = false
    /\ existsb is_inference_call (events (analyze_with_gemini fs ut g))
       = false.
Proof.
  intros L g fs ut Hc.
  rewrite (path_unavailable fs ut Hc). repeat split.
Qed.

Lemma unavailable_client_short_circuits_witness :
  let L := stub_libraries (text_reply sample_json) in
  let g : globals L := mkGlobals None in
  result (analyze_with_gemini stub_upload (Some (lit "medical_image")) g)
  = Returns unavailable_result
  /\ events (analyze_with_gemini stub_upload (Some (lit "medical_image")) g)
     = [Log ERROR (lit "AI Service Not Available. Check API key setup.")].
Proof.
  intros L g.
  destruct (unavailable_client_short_circuits L g stub_upload
              (Some (lit "medical_image")) eq_refl) as (H & _ & _).
  rewrite H. split; reflexivity.
Defined.


(** C5 as stated fails: line 115 is [except Exception], and an exception
    that does not derive from [Exception] passes it.  A
    [KeyboardInterrupt] during the inference call leaves the gateway. *)
Lemma keyboard_interrupt_propagates :
  result (analyze_with_gemini stub_upload (Some (lit "prescription"))
            (stub_globals (Raises sample_interrupt)))
  = Raises sample_interrupt
  /\ ~ (forall L (g : globals L) fs ut e,
          result (analyze_with_gemini fs ut g) <> Raises e).
Proof.
  assert (Hrun :
            result (analyze_with_gemini stub_upload
                      (Some (lit "prescription"))
                      (stub_globals (Raises sample_interrupt)))
            = Raises sample_interrupt) by reflexivity.
  split; [exact Hrun|].
  intros H. exact (H _ _ _ _ _ Hrun).
Qed.

(** C5, amended.  Whatever exception [e] deriving from [Exception]
    leaves the guarded statements (the decoding, the inference call, the
    reading of the response), the gateway catches it and returns
    {summary: "Gemini API or processing failed: " ++ str(e), severity:
    "Error", details: "N/A"}; an [e] that does not derive from
    [Exception] leaves the gateway, and nothing else ever does. *)
Theorem exceptions_are_absorbed :
  forall L (g : globals L) fs ut c e,
    client g = Some c ->
    raised_in_try L c fs ut e ->
    (isinstance e Exception = true ->
     result (analyze_with_gemini fs ut g)
     = Returns
         (VDict [ (lit "summary",
                   VStr (lit "Gemini API or processing failed: "
                         ++ exn_str e));
                  (lit "severity", VStr (lit "Error"));
                  (lit "details", VStr (lit "N/A")) ]))
    /\ (isinstance e Exception = false ->
        result (analyze_with_gemini fs ut g) = Raises e)
    /\ (forall (g' : globals L) fs' ut' e',
           result (analyze_with_gemini fs' ut' g') = Raises e' ->
           isinstance e' Exception = false).
Proof.
  intros L g fs ut c e Hc Hraised. split; [|split].
  - intros Hx.
    destruct Hraised as [Hd | img Hd Hr | img resp Hd Hr Ht
                         | img resp text Hd Hr Ht Hne Hj He].
    + rewrite (path_decode_raises fs ut Hc Hd Hx). reflexivity.
    + rewrite (path_call_raises fs ut Hc Hd Hr Hx). reflexivity.
    + rewrite (path_text_raises fs ut Hc Hd Hr Ht Hx). reflexivity.
    + rewrite (path_loads_raises fs ut Hc Hd Hr Ht Hne Hj He Hx).
      reflexivity.
  - intros Hx.
    destruct Hraised as [Hd | img Hd Hr | img resp Hd Hr Ht
                         | img resp text Hd Hr Ht Hne Hj He].
    + rewrite (path_decode_propagates fs ut Hc Hd Hx). reflexivity.
    + rewrite (path_call_propagates fs ut Hc Hd Hr Hx). reflexivity.
    + rewrite (path_text_propagates fs ut Hc Hd Hr Ht Hx). reflexivity.
    + rewrite (path_loads_propagates fs ut Hc Hd Hr Ht Hne Hj Hx).
      reflexivity.
  - intros g' fs' ut' e'. apply analyze_with_gemini_raises.
Qed.

Lemma exceptions_are_absorbed_witness :
  let e := mkExn (OtherException (lit "DeadlineExceeded"))
                 (lit "504 Deadline Exceeded") in
  result (analyze_with_gemini stub_upload (Some (lit "prescription"))
            (stub_globals (Raises e)))
  = Returns
      (VDict [ (lit "summary",
                VStr (lit "Gemini API or processing failed: 504 Deadline Exceeded"));
               (lit "severity", VStr (lit "Error"));
               (lit "details", VStr (lit "N/A")) ]).
Proof.
  intros e.
  destruct (exceptions_are_absorbed
              (stub_libraries (Raises e)) (stub_globals (Raises e))
              stub_upload (Some (lit "prescription")) stub_client e eq_refl)
    as (Hcaught & _ & _).
  - apply (raised_by_inference (stub_libraries (Raises e)) stub_client
             stub_upload (Some (lit "prescription")) e stub_upload);
      reflexivity.
  - apply Hcaught. reflexivity.
Defined.

(** C6.  The prompt handed to the inference call is [select_prompt
    upload_type].  Each of the three literal types selects its own
    text, a text no other value selects; every other value (a missing
    type, the empty string, another letter case) selects the generic
    text; and the prescription text asks for medications, dosage and
    frequency and ends by sending them to the 'details' field. *)
Theorem prompt_selected_by_exact_match :
  forall L (g : globals L) fs ut c img,
    client g = Some c ->
    Image_open L fs = Returns img ->
    (exists rest,
        events (analyze_with_gemini fs ut g)
        = ImageOpen fs
          :: GenerateContent c
               [PartText system_instruction; PartImage img;
                PartText (select_prompt ut)]
               gateway_config
          :: rest)
    /\ (ut = Some (lit "medical_image")
        <-> select_prompt ut
            = lit "Analyze this X-ray, CT, or medical image. Identify and describe any significant findings related to bone, tissue, or organs in simple, non-technical language. Provide a brief summary.")
    /\ (ut = Some (lit "blood_report")
        <-> select_prompt ut
            = lit "Analyze this lab report image. Identify all abnormal or out-of-range parameters. Explain what the deviation from the normal range might suggest in simple, simple terms.")
    /\ (ut = Some (lit "prescription")
        <-> select_prompt ut
            = lit "Decode this prescription image. List all medications, their dosage, and the precise daily schedule/frequency. Place the decoded information in the 'details' field.")
    /\ (ut <> Some (lit "medical_image")
        /\ ut <> Some (lit "blood_report")
        /\ ut <> Some (lit "prescription")
        <-> select_prompt ut
            = lit "Analyze this image and explain the medical content simply.")
    /\ select_prompt None
       = lit "Analyze this image and explain the medical content simply."
    /\ select_prompt (Some [])
       = lit "Analyze this image and explain the medical content simply."
    /\ select_prompt (Some (lit "Prescription"))
       = lit "Analyze this image and explain the medical content simply."
    /\ (exists before,
           select_prompt (Some (lit "prescription"))
           = before
             ++ lit "Place the decoded information in the 'details' field.")
    /\ str_contains (lit "medications")
         (select_prompt (Some (lit "prescription"))) = true
    /\ str_contains (lit "dosage")
         (select_prompt (Some (lit "prescription"))) = true
    /\ str_contains (lit "frequency")
         (select_prompt (Some (lit "prescription"))) = true.
Proof.
  intros L g fs ut c img Hc Hd.
  assert (E1 : lit "Analyze this X-ray, CT, or medical image. Identify and describe any significant findings related to bone, tissue, or organs in simple, non-technical language. Provide a brief summary."
               = prompt_medical_image) by reflexivity.
  assert (E2 : lit "Analyze this lab report image. Identify all abnormal or out-of-range parameters. Explain what the deviation from the normal range might suggest in simple, simple terms."
               = prompt_blood_report) by reflexivity.
  assert (E3 : lit "Decode this prescription image. List all medications, their dosage, and the precise daily schedule/frequency. Place the decoded information in the 'details' field."
               = prompt_prescription) by (vm_compute; reflexivity).
  assert (E4 : lit "Analyze this image and explain the medical content simply."
               = prompt_generic) by reflexivity.
  rewrite E1, E2, E3, E4.
  destruct (select_prompt_iff ut) as (I1 & I2 & I3 & I4).
  split; [|split; [|split; [|split; [|split]]]].
  - destruct (gateway_events_available L g fs ut c img Hc Hd)
      as (rest & -> & _).
    exists rest. reflexivity.
  - symmetry. exact I1.
  - symmetry. exact I2.
  - symmetry. exact I3.
  - symmetry. exact I4.
  - split; [reflexivity|]. split; [reflexivity|].
    split; [vm_compute; reflexivity|].
    split; [eexists; reflexivity|].
    split; [reflexivity|]. split; reflexivity.
Qed.

Lemma prompt_selected_by_exact_match_witness :
  select_prompt (Some (lit "blood_report")) = prompt_blood_report
  /\ select_prompt (Some (lit "blood-report")) = prompt_generic.
Proof.
  destruct (prompt_selected_by_exact_match
              (stub_libraries (text_reply sample_json))
              (stub_globals (text_reply sample_json))
              stub_upload (Some (lit "blood_report"))
              stub_client stub_upload eq_refl eq_refl)
    as (_ & _ & Hblood & _).
  destruct (prompt_selected_by_exact_match
              (stub_libraries (text_reply sample_json))
              (stub_globals (text_reply sample_json))
              stub_upload (Some (lit "blood-report"))
              stub_client stub_upload eq_refl eq_refl)
    as (_ & _ & _ & _ & Hother & _).
  split.
  - apply Hblood. reflexivity.
  - apply Hother. repeat split; str_neq.
Defined.




(** C8.  When the inference call returns a non-empty text that
    [json.loads] accepts, the gateway returns the parsed value as it is,
    whatever it is: no look at its shape, its field types or its
    severity, and nothing more is done (no log line, no second call). *)
Theorem parsed_value_is_returned_verbatim :
  forall L (g : globals L) fs ut c img resp text v,
    client g = Some c ->
    Image_open L fs = Returns img ->
    generate_content L c (gateway_contents img (select_prompt ut))
      gateway_config = Returns resp ->
    response_text resp = Returns text ->
    text <> [] ->
    json_loads L text = Returns v ->
    analyze_with_gemini fs ut g
    = mkRun (Returns v) g
        [ImageOpen fs;
         GenerateContent c (gateway_contents img (select_prompt ut))
           gateway_config].
Proof.
  intros L g fs ut c img resp text v Hc Hd Hr Ht Hne Hj.
  apply (path_parsed fs ut Hc Hd Hr Ht Hne Hj).
Qed.

Lemma parsed_value_is_returned_verbatim_witness :
  result (analyze_with_gemini stub_upload (Some (lit "medical_image"))
            (stub_globals (text_reply sample_json)))
  = Returns (VDict [ (lit "summary", VStr (lit "ok"));
                     (lit "severity", VStr (lit "unknown")) ]).
Proof.
  rewrite (parsed_value_is_returned_verbatim
             (stub_libraries (text_reply sample_json))
             (stub_globals (text_reply sample_json))
             stub_upload (Some (lit "medical_image"))
             stub_client stub_upload
             (mkResponse (Returns sample_json)) sample_json sample_parsed
             eq_refl eq_refl eq_refl eq_refl);
    [reflexivity | discriminate | reflexivity].
Defined.

(** C9.  The only process-wide state is [client].  The gateway and the
    route read it, never assign it, and leave the globals as they found
    them, so an invocation that follows another one runs as it runs on
    its own.  Start-up assigns [client] at most once: exactly once when
    it completes, and the process keeps the value assigned; not at all
    when an exception ends it before the process serves anything. *)
Theorem client_handle_is_read_only :
  forall L (g g0 : globals L) fs ut fs' ut' req key,
    globals_after (analyze_with_gemini fs ut g) = g
    /\ existsb is_store (events (analyze_with_gemini fs ut g)) = false
    /\ globals_after (analyze_report req g) = g
    /\ existsb is_store (events (analyze_report req g)) = false
    /\ analyze_with_gemini fs' ut'
         (globals_after (analyze_with_gemini fs ut g))
       = analyze_with_gemini fs' ut' g
    /\ (forall v,
           result (analyze_with_gemini fs ut g) = Returns v ->
           result ((analyze_with_gemini fs ut ;; analyze_with_gemini fs' ut')
                     g)
           = result (analyze_with_gemini fs' ut' g))
    /\ (result (startup key g0) = Returns tt ->
        exists v,
          filter is_store (events (startup key g0)) = [StoreClient v]
          /\ globals_after (startup key g0) = mkGlobals v)
    /\ (forall e,
           result (startup key g0) = Raises e ->
           filter is_store (events (startup key g0)) = []
           /\ globals_after (startup key g0) = g0)
    /\ List.length (filter is_store (events (startup key g0))) <= 1.
Proof.
  intros L g g0 fs ut fs' ut' req key.
  destruct (analyze_report_frame L g req) as [Hg Hs].
  pose proof (analyze_with_gemini_globals L g fs ut) as Hga.
  split; [exact Hga|].
  split; [apply analyze_with_gemini_no_store|].
  split; [exact Hg|]. split; [exact Hs|].
  split; [rewrite Hga; reflexivity|].
  split.
  { intros v Hv. rewrite bind_match.
    destruct (analyze_with_gemini fs ut g) as [res g1 evs].
    cbn in Hv, Hga. subst res g1.
    destruct (analyze_with_gemini fs' ut' g); reflexivity. }
  split; [apply startup_stores_once|].
  split.
  { intros e He.
    destruct (startup_raises L g0 key e He) as (_ & Hg0 & Hst & _).
    split; assumption. }
  destruct (result (startup key g0)) as [[]|e] eqn:Hr.
  - destruct (startup_stores_once L key g0 Hr) as (v & -> & _).
    cbn. lia.
  - destruct (startup_raises L g0 key e Hr) as (_ & _ & -> & _).
    cbn. lia.
Qed.

Lemma client_handle_is_read_only_witness :
  let L := stub_libraries (text_reply sample_json) in
  exists v,
    filter is_store
      (events (startup (L := L) (Some (lit "AIza-test")) (mkGlobals None)))
    = [StoreClient v]
    /\ globals_after
         (startup (L := L) (Some (lit "AIza-test")) (mkGlobals None))
       = mkGlobals v.
Proof.
  intros L.
  destruct (client_handle_is_read_only L (mkGlobals None) (mkGlobals None)
              stub_upload None stub_upload None
              (mkRequest [] []) (Some (lit "AIza-test")))
    as (_ & _ & _ & _ & _ & _ & Hstart & _).
  apply Hstart. reflexivity.
Defined.

(** C10.  Whatever the gateway returns is [None], a value [json.loads]
    produced, or one of its own three dicts; each of the three has
    severity "Error", and "Error" is not among the values the schema
    allows the model for [severity]. *)
Theorem synthesized_results_have_severity_Error :
  forall L (g : globals L) fs ut v,
    result (analyze_with_gemini fs ut g) = Returns v ->
    (v = VNone
     \/ (exists text, json_loads L text = Returns v)
     \/ ((v = unavailable_result
          \/ (exists raw, v = parse_error_result raw)
          \/ (exists e, v = failure_result e))
         /\ field "severity" v = Some (VStr (lit "Error"))))
    /\ field "severity" unavailable_result = Some (VStr (lit "Error"))
    /\ (forall raw,
           field "severity" (parse_error_result raw)
           = Some (VStr (lit "Error")))
    /\ (forall e,
           field "severity" (failure_result e) = Some (VStr (lit "Error")))
    /\ ~ In (lit "Error") severity_enum
    /\ (exists s,
           property_schema "severity" = Some s
           /\ schema_enum s
              = Some [lit "Low"; lit "Moderate"; lit "Severe";
                      lit "Informational"]).
Proof.
  intros L g fs ut v Hv.
  split; [|split; [|split; [|split; [|split]]]].
  - revert Hv.
    gateway_paths L g fs; intros H; try discriminate H; injection H as <-;
      first [ left; reflexivity
            | right; left; eauto; fail
            | right; right; split; [eauto | reflexivity] ].
  - reflexivity.
  - reflexivity.
  - reflexivity.
  - cbv. intuition discriminate.
  - eexists. split; reflexivity.
Qed.

Lemma synthesized_results_have_severity_Error_witness :
  field "severity" (parse_error_result (lit "<html>busy</html>"))
  = Some (VStr (lit "Error"))
  /\ ~ In (lit "Error") severity_enum.
Proof.
  destruct (synthesized_results_have_severity_Error
              (stub_libraries (text_reply (lit "<html>busy</html>")))
              (stub_globals (text_reply (lit "<html>busy</html>")))
              stub_upload None
              (parse_error_result (lit "<html>busy</html>")) eq_refl)
    as (_ & _ & Hparse & _ & Hnot & _).
  split; [apply Hparse | exact Hnot].
Defined.


(** ** Further properties of the code *)

(** *** Start-up (lines 35-47) *)

(** X1.  Without an API key (the variable unset, or set to the empty string)
    start-up logs one error, binds [client] to [None] and never touches
    the SDK. *)
Theorem startup_without_key :
  forall L (g0 : globals L) key,
    key = None \/ key = Some [] ->
    startup key g0
    = mkRun (Returns tt) (mkGlobals None)
        [Log ERROR (lit "GEMINI_API_KEY environment variable not set");
         StoreClient None].
Proof.
  intros L g0 key [-> | ->]; reflexivity.
Qed.

Lemma startup_without_key_witness :
  startup (L := stub_libraries (text_reply sample_json)) (Some [])
    (stub_globals (text_reply sample_json))
  = mkRun (Returns tt) (mkGlobals None)
      [Log ERROR (lit "GEMINI_API_KEY environment variable not set");
       StoreClient None].
Proof.
  apply (startup_without_key (stub_libraries (text_reply sample_json))).
  right. reflexivity.
Defined.

(** X2.  Start-up lets through only exceptions that do not derive from
    [Exception], raised by [genai.configure] or by the model
    constructor, and then assigns nothing.  When it completes, it leaves
    a client exactly when the key is non-empty, [genai.configure]
    accepts it and the model object is built; the client is then that
    object. *)
Theorem startup_client_iff :
  forall L (g0 : globals L) key c,
    (forall e,
        result (startup key g0) = Raises e ->
        isinstance e Exception = false
        /\ globals_after (startup key g0) = g0
        /\ exists k,
             key = Some k
             /\ (genai_configure L k = Raises e
                 \/ genai_GenerativeModel L model_name = Raises e))
    /\ (result (startup key g0) = Returns tt ->
        (client (globals_after (startup key g0)) = Some c
         <-> exists k,
               key = Some k /\ k <> []
               /\ genai_configure L k = Returns tt
               /\ genai_GenerativeModel L model_name = Returns c)).
Proof.
  intros L g0 key c. split.
  - intros e He.
    destruct (startup_raises L g0 key e He) as (Hx & Hg & _ & Hk).
    repeat split; assumption.
  - startup_paths L key; intros H; try discriminate H; split;
      try discriminate;
      try (intros (k' & Hk' & Hne & Hc1 & Hc2);
           first [ discriminate Hk'
                 | congruence
                 | injection Hk' as <-; congruence ]).
    intros [= ->]. eexists. repeat split; eauto. discriminate.
Qed.

Lemma startup_client_iff_witness :
  let L := stub_libraries (text_reply sample_json) in
  client (globals_after
            (startup (L := L) (Some (lit "AIza-test")) (mkGlobals None)))
  = Some model_name.
Proof.
  intros L.
  destruct (startup_client_iff L (mkGlobals None) (Some (lit "AIza-test"))
              model_name) as [_ H].
  apply H; [reflexivity|].
  exists (lit "AIza-test"). repeat split. discriminate.
Defined.

(** X3.  When the SDK raises [e] during initialisation and [e] derives
    from [Exception], start-up logs "Error initializing Gemini client: "
    followed by [str(e)], binds [client] to [None] and goes on; if it is
    [genai.configure] that raised, the model object is not asked for.
    When [e] does not derive from [Exception], start-up ends with [e],
    having logged and assigned nothing. *)
Theorem startup_failure_is_logged :
  forall L (g0 : globals L) k e,
    k <> [] ->
    genai_configure L k = Raises e
    \/ (genai_configure L k = Returns tt
        /\ genai_GenerativeModel L model_name = Raises e) ->
    (isinstance e Exception = true ->
     result (startup (Some k) g0) = Returns tt
     /\ globals_after (startup (Some k) g0) = mkGlobals None
     /\ (exists calls,
            events (startup (Some k) g0)
            = calls
              ++ [Log ERROR (lit "Error initializing Gemini client: "
                             ++ exn_str e);
                  StoreClient None]
            /\ forallb is_library_call calls = true
            /\ (genai_configure L k = Raises e -> calls = [Configure k])))
    /\ (isinstance e Exception = false ->
        result (startup (Some k) g0) = Raises e
        /\ globals_after (startup (Some k) g0) = g0
        /\ forallb is_library_call (events (startup (Some k) g0)) = true).
Proof.
  intros L g0 k e Hk H. unfold startup.
  destruct k as [|x k]; [congruence|].
  cbn [env_truthy str_truthy negb]. run_py.
  destruct H as [Hcfg | [Hcfg Hnew]]; rewrite Hcfg; run_py.
  - split; intros Hx; rewrite Hx; run_py.
    + repeat split. exists [Configure (x :: k)]. repeat split.
    + repeat split.
  - rewrite Hnew; run_py. split; intros Hx; rewrite Hx; run_py.
    + repeat split.
      exists [Configure (x :: k); NewModel model_name]. repeat split.
      congruence.
    + repeat split.
Qed.

Lemma startup_failure_is_logged_witness :
  events (startup (L := stub_libraries_bad_key) (Some (lit "AIza-test"))
            (mkGlobals None))
  = [Configure (lit "AIza-test");
     Log ERROR (lit "Error initializing Gemini client: API key not valid");
     StoreClient None].
Proof.
  assert (Hk : lit "AIza-test" <> []) by discriminate.
  destruct (startup_failure_is_logged stub_libraries_bad_key (mkGlobals None)
              (lit "AIza-test") sample_sdk_error Hk
              (or_introl eq_refl)) as [Hcaught _].
  destruct (Hcaught eq_refl) as (_ & _ & calls & Hev & _ & Hcalls).
  rewrite (Hcalls eq_refl) in Hev. exact Hev.
Defined.

(** X4.  When the SDK accepts the key, start-up configures it with that key,
    builds the model "gemini-2.0-flash-lite", binds [client] to it and
    logs the success, in this order and with nothing else. *)
Theorem startup_success_trace :
  forall L (g0 : globals L) k c,
    k <> [] ->
    genai_configure L k = Returns tt ->
    genai_GenerativeModel L (lit "gemini-2.0-flash-lite") = Returns c ->
    startup (Some k) g0
    = mkRun (Returns tt) (mkGlobals (Some c))
        [Configure k;
         NewModel (lit "gemini-2.0-flash-lite");
         StoreClient (Some c);
         Log INFO (lit "Gemini Client Initialized Successfully.")].
Proof.
  intros L g0 k c Hk Hcfg Hnew. unfold startup.
  destruct k as [|x k]; [congruence|].
  cbn [env_truthy str_truthy negb]. run_py.
  rewrite Hcfg; run_py. unfold model_name. rewrite Hnew; run_py.
  reflexivity.
Qed.

Lemma startup_success_trace_witness :
  globals_after
    (startup (L := stub_libraries (text_reply sample_json))
       (Some (lit "AIza-test")) (mkGlobals None))
  = mkGlobals (L := stub_libraries (text_reply sample_json))
      (Some (lit "gemini-2.0-flash-lite")).
Proof.
  assert (Hk : lit "AIza-test" <> []) by discriminate.
  exact (f_equal globals_after
           (startup_success_trace (stub_libraries (text_reply sample_json))
              (mkGlobals None) (lit "AIza-test")
              (lit "gemini-2.0-flash-lite") Hk eq_refl eq_refl)).
Defined.

(** *** The gateway (lines 50-118) *)

(** X5.  One invocation opens the upload at most once and calls the model at
    most once (there is no retry).  The upload is opened exactly when
    there is a client, and the model is called exactly when, besides,
    the upload decodes: an undecodable upload costs no inference call. *)
Theorem gateway_calls_at_most_once :
  forall L (g : globals L) fs ut,
    let evs := events (analyze_with_gemini fs ut g) in
    List.length (filter is_image_open evs) <= 1
    /\ List.length (filter is_inference_call evs) <= 1
    /\ (existsb is_image_open evs = true <-> client g <> None)
    /\ (existsb is_inference_call evs = true
        <-> client g <> None /\ exists img, Image_open L fs = Returns img).
Proof.
  intros L g fs ut evs. subst evs.
  destruct (client g) as [c|] eqn:Hc.
  2:{ rewrite (path_unavailable fs ut Hc). cbn.
      repeat split; try lia; try discriminate; try congruence.
      intros [H _]. congruence. }
  destruct (Image_open L fs) as [img|e] eqn:Hd.
  2:{ assert (Hnone : ~ (Some c <> None
                         /\ exists img : Image L,
                              @Raises (Image L) e = Returns img)).
      { intros [_ [img Himg]]. discriminate Himg. }
      destruct (isinstance e Exception) eqn:Hx.
      - rewrite (path_decode_raises fs ut Hc Hd Hx). cbn.
        repeat split; try lia; try discriminate. intros H. tauto.
      - rewrite (path_decode_propagates fs ut Hc Hd Hx). cbn.
        repeat split; try lia; try discriminate. intros H. tauto. }
  destruct (gateway_events_available L g fs ut c img Hc Hd)
    as (rest & -> & Hrest).
  destruct Hrest as [-> | [e ->]]; cbn;
    repeat split; try lia; try discriminate; eauto.
Qed.

(** X6.  Whatever the gateway logs is an error line whose text is the summary
    of the dict it returns, a dict with severity "Error" and details
    "N/A"; and it logs at most that one line. *)
Theorem gateway_logs_what_it_returns :
  forall L (g : globals L) fs ut lv msg,
    In (Log lv msg) (events (analyze_with_gemini fs ut g)) ->
    lv = ERROR
    /\ result (analyze_with_gemini fs ut g)
       = Returns (VDict [ (lit "summary", VStr msg);
                          (lit "severity", VStr (lit "Error"));
                          (lit "details", VStr (lit "N/A")) ])
    /\ filter is_log (events (analyze_with_gemini fs ut g))
       = [Log ERROR msg].
Proof.
  intros L g fs ut lv msg.
  gateway_paths L g fs; cbn [In]; intros H;
    repeat (destruct H as [H | H]; try discriminate H; try contradiction);
    injection H as <- <-; repeat split.
Qed.

Lemma gateway_logs_what_it_returns_witness :
  let L := stub_libraries (text_reply sample_json) in
  result (analyze_with_gemini (L := L) [] None (stub_globals _))
  = Returns (VDict [ (lit "summary",
                      VStr (lit "Gemini API or processing failed: cannot identify image file"));
                     (lit "severity", VStr (lit "Error"));
                     (lit "details", VStr (lit "N/A")) ]).
Proof.
  intros L.
  apply (gateway_logs_what_it_returns L
           (stub_globals (text_reply sample_json)) [] None ERROR
           (lit "Gemini API or processing failed: cannot identify image file")).
  right. left. reflexivity.
Defined.

(** X7.  Two failures leave no trace in the log: a model answer that is not
    JSON, and an empty model answer. *)
Theorem parse_failure_and_empty_text_are_not_logged :
  forall L (g : globals L) fs ut c img resp text,
    client g = Some c ->
    Image_open L fs = Returns img ->
    generate_content L c (gateway_contents img (select_prompt ut))
      gateway_config = Returns resp ->
    response_text resp = Returns text ->
    text = []
    \/ (exists e,
           json_loads L text = Raises e
           /\ isinstance e JSONDecodeError = true) ->
    filter is_log (events (analyze_with_gemini fs ut g)) = [].
Proof.
  intros L g fs ut c img resp text Hc Hd Hr Ht [Hempty | (e & Hj & He)].
  - rewrite (path_text_empty fs ut Hc Hd Hr Ht Hempty). reflexivity.
  - destruct text as [|x text].
    + rewrite (path_text_empty fs ut Hc Hd Hr Ht eq_refl). reflexivity.
    + assert (Hne : x :: text <> []) by discriminate.
      rewrite (path_decode_error fs ut Hc Hd Hr Ht Hne Hj He). reflexivity.
Qed.

Lemma parse_failure_and_empty_text_are_not_logged_witness :
  let reply := text_reply (lit "Sorry, I cannot help with that.") in
  filter is_log
    (events (analyze_with_gemini stub_upload (Some (lit "blood_report"))
               (stub_globals reply)))
  = [].
Proof.
  intros reply.
  apply (parse_failure_and_empty_text_are_not_logged
           (stub_libraries reply) (stub_globals reply)
           stub_upload (Some (lit "blood_report")) stub_client stub_upload
           (mkResponse (Returns (lit "Sorry, I cannot help with that.")))
           (lit "Sorry, I cannot help with that."));
    try reflexivity.
  right. exists sample_decode_error. split; reflexivity.
Defined.

(** X8.  A model answer of at most 500 characters that is not JSON comes back
    whole in the details of the parse-error dict. *)
Theorem short_invalid_answer_is_kept_whole :
  forall L (g : globals L) fs ut c img resp text e,
    client g = Some c ->
    Image_open L fs = Returns img ->
    generate_content L c (gateway_contents img (select_prompt ut))
      gateway_config = Returns resp ->
    response_text resp = Returns text ->
    text <> [] ->
    List.length text <= 500 ->
    json_loads L text = Raises e ->
    isinstance e JSONDecodeError = true ->
    result (analyze_with_gemini fs ut g)
    = Returns (VDict [ (lit "summary", VStr (lit "Error parsing AI response"));
                       (lit "severity", VStr (lit "Error"));
                       (lit "details", VStr text) ]).
Proof.
  intros L g fs ut c img resp text e Hc Hd Hr Ht Hne Hlen Hj He.
  rewrite (path_decode_error fs ut Hc Hd Hr Ht Hne Hj He).
  cbn [result]. unfold parse_error_result, slice_to.
  rewrite firstn_all2 by exact Hlen. reflexivity.
Qed.

Lemma short_invalid_answer_is_kept_whole_witness :
  let text := repeat 120%N 500 in
  result (analyze_with_gemini stub_upload None
            (stub_globals (text_reply text)))
  = Returns (VDict [ (lit "summary", VStr (lit "Error parsing AI response"));
                     (lit "severity", VStr (lit "Error"));
                     (lit "details", VStr text) ]).
Proof.
  intros text.
  apply (short_invalid_answer_is_kept_whole
           (stub_libraries (text_reply text)) (stub_globals (text_reply text))
           stub_upload None stub_client stub_upload
           (mkResponse (Returns text)) text sample_decode_error);
    try reflexivity.
  discriminate.
Defined.

(** *** Prompt selection (lines 69-79) *)

(** X9.  The prompt tells the type: each of the three dedicated prompts is
    selected for its own literal type and for nothing else, and the
    generic prompt for exactly the remaining values. *)
Theorem select_prompt_determines_type :
  forall ut,
    (select_prompt ut = prompt_medical_image
     <-> ut = Some (lit "medical_image"))
    /\ (select_prompt ut = prompt_blood_report
        <-> ut = Some (lit "blood_report"))
    /\ (select_prompt ut = prompt_prescription
        <-> ut = Some (lit "prescription"))
    /\ (select_prompt ut = prompt_generic
        <-> ut <> Some (lit "medical_image")
            /\ ut <> Some (lit "blood_report")
            /\ ut <> Some (lit "prescription")).
Proof.
  intros ut.
  destruct prompts_distinct as (D12 & D13 & D14 & D23 & D24 & D34).
  destruct types_distinct as (T12 & T13 & T23).
  destruct (select_prompt_cases ut)
    as [[Hu Hp] | [[Hu Hp] | [[Hu Hp] | (N1 & N2 & N3 & Hp)]]];
    rewrite Hp; try rewrite Hu;
    repeat split; intros; try reflexivity; try assumption;
    try congruence; intuition congruence.
Qed.

(** X10.  The upload type reaches a run only through the prompt it selects:
    two types with the same prompt (any two unlisted ones, a missing
    one, a listed one in another letter case) give the same result and
    the same trace. *)
Theorem upload_type_matters_through_prompt_only :
  forall L (g : globals L) fs ut ut',
    select_prompt ut = select_prompt ut' ->
    analyze_with_gemini fs ut g = analyze_with_gemini fs ut' g.
Proof.
  intros L g fs ut ut' H. unfold analyze_with_gemini. rewrite H.
  reflexivity.
Qed.

Lemma upload_type_matters_through_prompt_only_witness :
  analyze_with_gemini stub_upload (Some (lit "Prescription"))
    (stub_globals (text_reply sample_json))
  = analyze_with_gemini stub_upload None
      (stub_globals (text_reply sample_json)).
Proof.
  apply (upload_type_matters_through_prompt_only
           (stub_libraries (text_reply sample_json))).
  reflexivity.
Defined.

(** *** The route (lines 121-133) *)



(** X12.  Without a client, every request with an accepted upload is answered
    200 with the "AI Service Not Available" dict; the run is three log
    lines and touches neither the upload nor the network. *)
Theorem route_without_client :
  forall L (g : globals L) req f,
    dict_get (lit "file") (files req) = Some f ->
    filename f <> [] ->
    client g = None ->
    analyze_report req g
    = mkRun
        (Returns
           (mkHttp
              (VDict [ (lit "summary",
                        VStr (lit "AI Service Not Available. Check API key setup."));
                       (lit "severity", VStr (lit "Error"));
                       (lit "details", VStr (lit "N/A")) ])
              200))
        g
        [Log INFO (lit "Received analysis request");
         Log ERROR (lit "AI Service Not Available. Check API key setup.");
         Log INFO (lit "Analysis completed successfully")].
Proof.
  intros L g req f Hf Hn Hc.
  pose proof (path_unavailable (stream f)
                (dict_get (lit "type") (form req)) Hc) as Hrun.
  rewrite (analyze_report_truthy_file L g req f unavailable_result Hf Hn);
    rewrite Hrun; reflexivity.
Qed.

Lemma route_without_client_witness :
  let L := stub_libraries (text_reply sample_json) in
  status_of_run
    (analyze_report (L := L)
       (sample_request (lit "rx.jpg") stub_upload "prescription")
       (mkGlobals None))
  = Some 200%Z.
Proof.
  intros L.
  rewrite (route_without_client L (mkGlobals None)
             (sample_request (lit "rx.jpg") stub_upload "prescription")
             (mkFileStorage (lit "rx.jpg") stub_upload) eq_refl).
  - reflexivity.
  - discriminate.
  - reflexivity.
Defined.

(** X13.  An upload Pillow cannot open with an error [e] deriving from
    [Exception] is still answered 200: the body is the fallback dict
    built from the decoder's message, the error is logged, and the model
    is not called.  An [e] that does not derive from [Exception] passes
    through the gateway and the route, after the first log line and the
    attempt to open the upload. *)
Theorem route_on_undecodable_upload :
  forall L (g : globals L) req f c e,
    dict_get (lit "file") (files req) = Some f ->
    filename f <> [] ->
    client g = Some c ->
    Image_open L (stream f) = Raises e ->
    (isinstance e Exception = true ->
     analyze_report req g
     = mkRun
         (Returns
            (mkHttp
               (VDict [ (lit "summary",
                         VStr (lit "Gemini API or processing failed: "
                               ++ exn_str e));
                        (lit "severity", VStr (lit "Error"));
                        (lit "details", VStr (lit "N/A")) ])
               200))
         g
         [Log INFO (lit "Received analysis request");
          ImageOpen (stream f);
          Log ERROR (lit "Gemini API or processing failed: " ++ exn_str e);
          Log INFO (lit "Analysis completed successfully")])
    /\ (isinstance e Exception = false ->
        analyze_report req g
        = mkRun (Raises e) g
            [Log INFO (lit "Received analysis request");
             ImageOpen (stream f)]).
Proof.
  intros L g req f c e Hf Hn Hc Hd. split; intros Hx.
  - pose proof (path_decode_raises (stream f)
                  (dict_get (lit "type") (form req)) Hc Hd Hx) as Hrun.
    rewrite (analyze_report_truthy_file L g req f (failure_result e) Hf Hn);
      rewrite Hrun; reflexivity.
  - pose proof (path_decode_propagates (stream f)
                  (dict_get (lit "type") (form req)) Hc Hd Hx) as Hrun.
    rewrite (analyze_report_gateway_raises L g req f e Hf Hn);
      rewrite Hrun; reflexivity.
Qed.

Lemma route_on_undecodable_upload_witness :
  let L := stub_libraries (text_reply sample_json) in
  events (analyze_report (L := L)
            (sample_request (lit "empty.png") [] "medical_image")
            (stub_globals (text_reply sample_json)))
  = [Log INFO (lit "Received analysis request");
     ImageOpen [];
     Log ERROR (lit "Gemini API or processing failed: cannot identify image file");
     Log INFO (lit "Analysis completed successfully")].
Proof.
  intros L.
  assert (Hn : filename (mkFileStorage (lit "empty.png") []) <> [])
    by discriminate.
  destruct (route_on_undecodable_upload L
              (stub_globals (text_reply sample_json))
              (sample_request (lit "empty.png") [] "medical_image")
              (mkFileStorage (lit "empty.png") []) stub_client
              (mkExn OSError (lit "cannot identify image file"))
              eq_refl Hn eq_refl eq_refl) as [Hcaught _].
  exact (f_equal events (Hcaught eq_refl)).
Defined.

(** X14.  The route reads two things of a request: the first [file] part and
    the first [type] field.  Requests that agree on them are handled
    alike, so further parts, further fields and repeated fields change
    nothing. *)
Theorem route_reads_first_file_and_type :
  forall L (g : globals L) req req',
    dict_get (lit "file") (files req) = dict_get (lit "file") (files req') ->
    dict_get (lit "type") (form req) = dict_get (lit "type") (form req') ->
    analyze_report req g = analyze_report req' g.
Proof.
  intros L g req req' Hfile Htype. unfold analyze_report.
  rewrite Hfile, Htype. reflexivity.
Qed.

Lemma route_reads_first_file_and_type_witness :
  let L := stub_libraries (text_reply sample_json) in
  analyze_report (L := L)
    (mkRequest
       [(lit "attachment", mkFileStorage (lit "a.pdf") []);
        (lit "file", mkFileStorage (lit "scan.png") stub_upload);
        (lit "file", mkFileStorage (lit "other.png") [])]
       [(lit "type", lit "blood_report"); (lit "type", lit "prescription");
        (lit "note", lit "urgent")])
    (stub_globals (text_reply sample_json))
  = analyze_report (L := L)
      (sample_request (lit "scan.png") stub_upload "blood_report")
      (stub_globals (text_reply sample_json)).
Proof.
  intros L.
  apply (route_reads_first_file_and_type L); reflexivity.
Defined.

(** *** Start-up followed by requests *)

(** X15.  A process whose start-up completed and left no client (no key,
    or an SDK error) answers a request with an accepted upload by 200
    and the "AI Service Not Available" dict.  Whether start-up
    completed or not, with no client after it the whole run has neither
    opened an upload nor called the model. *)
Theorem process_without_client :
  forall L (g0 : globals L) key req f,
    client (globals_after (startup key g0)) = None ->
    dict_get (lit "file") (files req) = Some f ->
    filename f <> [] ->
    let r := (startup key ;; analyze_report req) g0 in
    (result (startup key g0) = Returns tt ->
     result r = Returns (mkHttp unavailable_result 200))
    /\ (forall e, result (startup key g0) = Raises e -> result r = Raises e)
    /\ existsb is_image_open (events r) = false
    /\ existsb is_inference_call (events r) = false.
Proof.
  intros L g0 key req f Hc Hf Hn r. subst r.
  destruct (startup_no_upload_calls L g0 key) as [Ho Hi].
  pose proof (path_unavailable (stream f)
                (dict_get (lit "type") (form req)) Hc) as Hrun.
  assert (Hroute :
            analyze_report req (globals_after (startup key g0))
            = mkRun (Returns (mkHttp unavailable_result 200))
                (globals_after (startup key g0))
                [Log INFO (lit "Received analysis request");
                 Log ERROR
                   (lit "AI Service Not Available. Check API key setup.");
                 Log INFO (lit "Analysis completed successfully")]).
  { rewrite (analyze_report_truthy_file L _ req f unavailable_result Hf Hn);
      rewrite Hrun; reflexivity. }
  rewrite bind_match.
  destruct (startup key g0) as [[[]|e] g1 evs];
    cbn [globals_after result events] in Hc, Ho, Hi, Hroute |- *.
  - rewrite Hroute. cbn [result events].
    rewrite !existsb_app, Ho, Hi.
    repeat split. intros e He. discriminate He.
  - repeat split; try assumption.
    + intros He. discriminate He.
    + intros e' He. injection He as <-. reflexivity.
Qed.

Lemma process_without_client_witness :
  let r :=
    (startup (L := stub_libraries_bad_key) (Some (lit "AIza-test")) ;;
     analyze_report
       (sample_request (lit "scan.png") stub_upload "medical_image"))
      (mkGlobals None) in
  result r = Returns (mkHttp unavailable_result 200)
  /\ existsb is_image_open (events r) = false
  /\ existsb is_inference_call (events r) = false.
Proof.
  assert (Hn : filename (mkFileStorage (lit "scan.png") stub_upload) <> [])
    by discriminate.
  destruct (process_without_client stub_libraries_bad_key (mkGlobals None)
              (Some (lit "AIza-test"))
              (sample_request (lit "scan.png") stub_upload "medical_image")
              (mkFileStorage (lit "scan.png") stub_upload)
              eq_refl eq_refl Hn) as (Hret & _ & Ho & Hi).
  split; [exact (Hret eq_refl)|]. split; assumption.
Defined.

(** X16.  The model object built at start-up is the one every later inference
    call goes to: after a successful start-up, the gateway, given a
    decodable upload, opens it and calls that object with the system
    instruction, the image and the selected prompt. *)
Theorem startup_client_is_used :
  forall L (g0 : globals L) k c fs ut img,
    k <> [] ->
    genai_configure L k = Returns tt ->
    genai_GenerativeModel L model_name = Returns c ->
    Image_open L fs = Returns img ->
    exists rest,
      events ((startup (Some k) ;; analyze_with_gemini fs ut) g0)
      = [Configure k; NewModel model_name; StoreClient (Some c);
         Log INFO (lit "Gemini Client Initialized Successfully.");
         ImageOpen fs;
         GenerateContent c
           [PartText system_instruction; PartImage img;
            PartText (select_prompt ut)]
           gateway_config]
        ++ rest
      /\ existsb is_inference_call rest = false.
Proof.
  intros L g0 k c fs ut img Hk Hcfg Hnew Hd.
  pose proof (startup_run_success L g0 k c Hk Hcfg Hnew) as Hs.
  assert (Hc : client (mkGlobals (L := L) (Some c)) = Some c) by reflexivity.
  destruct (gateway_events_available L (mkGlobals (Some c)) fs ut c img
              Hc Hd) as (rest & Hev & Hrest).
  exists rest. split.
  - rewrite bind_match, Hs.
    destruct (analyze_with_gemini fs ut (mkGlobals (Some c)))
      as [res g1 evs].
    cbn in Hev |- *. rewrite Hev. reflexivity.
  - destruct Hrest as [-> | [e ->]]; reflexivity.
Qed.

Lemma startup_client_is_used_witness :
  let L := stub_libraries (text_reply sample_json) in
  exists rest,
    events ((startup (L := L) (Some (lit "AIza-test")) ;;
             analyze_with_gemini stub_upload (Some (lit "prescription")))
              (mkGlobals None))
    = [Configure (lit "AIza-test"); NewModel model_name;
       @StoreClient L (Some model_name);
       Log INFO (lit "Gemini Client Initialized Successfully.");
       ImageOpen stub_upload;
       @GenerateContent L model_name
         [PartText system_instruction; PartImage stub_upload;
          PartText (select_prompt (Some (lit "prescription")))]
         gateway_config]
      ++ rest
    /\ existsb is_inference_call rest = false.
Proof.
  intros L.
  apply (startup_client_is_used L (mkGlobals None) (lit "AIza-test")
           model_name stub_upload (Some (lit "prescription")) stub_upload).
  - discriminate.
  - reflexivity.
  - reflexivity.
  - reflexivity.
Defined.
